(** * ember-phone-input: the PhoneInput component

    A shallow embedding of [src/components/phone-input.ts].  The component
    is glue around the intl-tel-input plugin, so the embedding is a state
    and error monad over the component's fields, the listeners registered
    on DOM elements, and an external world (plugin, loader service, host
    callbacks) that is a parameter of the development.  Every call that
    leaves the component is written to a log together with its outcome. *)

From Stdlib Require Import String List Bool Arith Lia PrimFloat.
Import ListNotations.
Set Warnings "-register-all".
Local Open Scope string_scope.
Local Open Scope list_scope.

(** ** JavaScript values *)

(** Values that reach the component through its arguments or come back from
    the plugin.  Arrays and object literals are structural; reference
    identity is only modelled where the code depends on it, for the
    functions handed to the DOM (see [Listener]). *)
Inductive JsVal : Type :=
| VUndefined
| VNull
| VBool (b : bool)
| VNumber (n : float)
| VString (s : string)
| VArray (items : list JsVal)
| VObject (props : list (string * JsVal)).

(** ToBoolean. *)
Definition truthy (v : JsVal) : bool :=
  match v with
  | VUndefined | VNull => false
  | VBool b => b
  | VNumber n => negb (is_zero n || is_nan n)
  | VString s => negb (s =? "")
  | VArray _ | VObject _ => true
  end.

(** [a || b] *)
Definition js_or (a b : JsVal) : JsVal := if truthy a then a else b.

(** [typeof v] *)
Definition typeof (v : JsVal) : string :=
  match v with
  | VUndefined => "undefined"
  | VNull => "object"
  | VBool _ => "boolean"
  | VNumber _ => "number"
  | VString _ => "string"
  | VArray _ | VObject _ => "object"
  end.

(** SameValueZero, the comparison of [Array.prototype.includes].  It is
    used against lists of primitives only; an array or object operand is
    never the same value as a primitive. *)
Definition same_value_zero (a b : JsVal) : bool :=
  match a, b with
  | VUndefined, VUndefined => true
  | VNull, VNull => true
  | VBool x, VBool y => Bool.eqb x y
  | VNumber x, VNumber y => (is_nan x && is_nan y) || PrimFloat.eqb x y
  | VString x, VString y => (x =? y)
  | _, _ => false
  end.

(** [xs.includes(v)] *)
Definition includes (xs : list JsVal) (v : JsVal) : bool :=
  existsb (fun x => same_value_zero x v) xs.

(** ** Errors and results *)

(** What a [throw] carries: the failure of an [assert] of [@ember/debug]
    (debug builds, where [assert] throws), the [TypeError] of a property
    read on [undefined], or whatever external code threw. *)
Inductive Exn : Type :=
| AssertionFailed (msg : string)
| TypeError (msg : string)
| Thrown (v : JsVal).

Inductive Result (A : Type) : Type :=
| Ok (a : A)
| Throw (e : Exn).
Arguments Ok {A} a.
Arguments Throw {A} e.

(** [assert(msg, cond)] *)
Definition assert (msg : string) (cond : bool) : Result unit :=
  if cond then Ok tt else Throw (AssertionFailed msg).

(** ** Arguments of the component *)

(** A function of the host application, known by its identity. *)
Definition HostFn := nat.

Module Args.
(** [PhoneInputArgs].  A template can pass any value, so the fields are
    untyped values; the two callbacks are present or absent. *)
Record t : Type := mk {
    number : JsVal;
    update : option HostFn;
    country : JsVal;
    disabled : JsVal;
    required : JsVal;
    autocomplete : JsVal;
    allowDropdown : JsVal;
    autoPlaceholder : JsVal;
    customPlaceholder : JsVal;
    initialCountry : JsVal;
    onlyCountries : JsVal;
    preferredCountries : JsVal;
    separateDialCode : JsVal;
    onError : option HostFn
  }.

(** No argument given at all. *)
Definition empty : t :=
    mk VUndefined None VUndefined VUndefined VUndefined VUndefined VUndefined
       VUndefined VUndefined VUndefined VUndefined VUndefined VUndefined None.
End Args.

(** ** The DOM: elements and their listeners *)

Definition Element := nat.

(** The function objects the component hands to [addEventListener] and
    [removeEventListener].  [this.onCountryChange] reads the method from
    the prototype (it is not an [@action]), always the same object;
    [this.onCountryChange.bind(this)] makes a new function object on each
    evaluation, told apart by a serial number. *)
Inductive Listener : Type :=
| OnCountryChangeMethod
| OnCountryChangeBound (serial : nat).

Definition Listener_eqb (a b : Listener) : bool :=
  match a, b with
  | OnCountryChangeMethod, OnCountryChangeMethod => true
  | OnCountryChangeBound i, OnCountryChangeBound j => Nat.eqb i j
  | _, _ => false
  end.

(** One entry of an element's event listener list (capture is the default
    in every call of the component). *)
Definition Registration : Type := Element * string * Listener.

Definition Registration_eqb (a b : Registration) : bool :=
  let '(e1, t1, f1) := a in
  let '(e2, t2, f2) := b in
  Nat.eqb e1 e2 && (t1 =? t2) && Listener_eqb f1 f2.

(** [element.addEventListener(type, f)]: an identical entry is not added
    twice. *)
Definition dom_add (r : Registration) (rs : list Registration) : list Registration :=
  if existsb (Registration_eqb r) rs then rs else rs ++ [r].

(** [element.removeEventListener(type, f)]: removes the entry with this
    very function, if there is one. *)
Definition dom_remove (r : Registration) (rs : list Registration) : list Registration :=
  filter (fun x => negb (Registration_eqb r x)) rs.

(** ** The plugin interface *)

(** [intlTelInputUtils.numberFormat], an ambient enumeration of the
    library's typings. *)
Inductive FormatKind : Type := E164 | INTERNATIONAL | NATIONAL | RFC3966.

(** The methods of [intlTelInput.Plugin] the component calls. *)
Inductive Method : Type :=
| getNumber (format : option FormatKind)
| setNumber (number : JsVal)
| setCountry (country : JsVal)
| getExtension
| getSelectedCountryData
| isValidNumber
| destroy.

Inductive Locale : Type := fr.

Module Options.
(** [intlTelInput.Options] as [setupLibrary] fills it.  The
    [customPlaceholder] option, when set, is the constant function that
    returns the recorded value. *)
Record t : Type := mk {
  autoInsertDialCode : bool;
  nationalMode : bool;
  i18n : Locale;
  allowDropdown : JsVal;
  autoPlaceholder : JsVal;
  initialCountry : JsVal;
  onlyCountries : JsVal;
  preferredCountries : JsVal;
  separateDialCode : JsVal;
  customPlaceholder : option JsVal
}.
End Options.

(** ** The external world *)

(** Everything the component calls but does not define: the plugin, the
    [phoneInput] service, the host's callbacks and [isPresent] of
    [@ember/utils].  Each call takes the state of the world, returns or
    throws, and leaves a new state. *)
Class External : Type := {
  Ext : Type;
  Plugin : Type;
  isPresent : JsVal -> bool;
  (** [this.phoneInput.load()] up to the promise it returns *)
  service_load : Ext -> Result unit * Ext;
  (** whether [this.phoneInput.intlTelInput] is set *)
  service_intlTelInput : Ext -> bool;
  (** [this.phoneInput.intlTelInput(element, options)] *)
  service_construct : Element -> Options.t -> Ext -> Result Plugin * Ext;
  plugin_call : Plugin -> Method -> Ext -> Result JsVal * Ext;
  host_update : HostFn -> JsVal -> JsVal -> Ext -> Result unit * Ext;
  host_onError : HostFn -> Exn -> Ext -> Result unit * Ext
}.

Section PhoneInput.
Context {world : External}.

(** ** The component and the state of a run *)

(** One record of what left the component, with how the call ended. *)
Inductive Event : Type :=
| EvLoad (r : Result unit)
| EvConstruct (element : Element) (options : Options.t) (r : Result Plugin)
| EvPlugin (p : Plugin) (m : Method) (r : Result JsVal)
| EvUpdate (f : HostFn) (number meta : JsVal) (r : Result unit)
| EvOnError (f : HostFn) (error : Exn) (r : Result unit).

(** The fields of [PhoneInputComponent].  [update] is [None] for the empty
    function the constructor falls back to.  [isDestroying] and
    [isDestroyed] belong to the Glimmer base class and are set by the
    framework. *)
Record Component : Type := mkComponent {
  args : Args.t;
  isLoadingIntlTelInput : bool;
  type : string;
  update : option HostFn;
  intlTelInputInstance : option Plugin;
  isDestroying : bool;
  isDestroyed : bool
}.

Record State : Type := mkState {
  this : Component;
  listeners : list Registration;
  serial : nat;
  ext : Ext;
  log : list Event
}.

Definition set_isLoadingIntlTelInput (b : bool) (c : Component) : Component :=
  mkComponent (args c) b (type c) (update c) (intlTelInputInstance c)
              (isDestroying c) (isDestroyed c).

Definition set_update (u : option HostFn) (c : Component) : Component :=
  mkComponent (args c) (isLoadingIntlTelInput c) (type c) u
              (intlTelInputInstance c) (isDestroying c) (isDestroyed c).

Definition set_intlTelInputInstance (p : option Plugin) (c : Component) : Component :=
  mkComponent (args c) (isLoadingIntlTelInput c) (type c) (update c) p
              (isDestroying c) (isDestroyed c).

Definition set_args (a : Args.t) (c : Component) : Component :=
  mkComponent a (isLoadingIntlTelInput c) (type c) (update c)
              (intlTelInputInstance c) (isDestroying c) (isDestroyed c).

Definition set_isDestroying (b : bool) (c : Component) : Component :=
  mkComponent (args c) (isLoadingIntlTelInput c) (type c) (update c)
              (intlTelInputInstance c) b (isDestroyed c).

Definition set_isDestroyed (b : bool) (c : Component) : Component :=
  mkComponent (args c) (isLoadingIntlTelInput c) (type c) (update c)
              (intlTelInputInstance c) (isDestroying c) b.

(** ** The monad: state that survives a throw *)

Definition M (A : Type) : Type := State -> Result A * State.

Definition ret {A} (a : A) : M A := fun st => (Ok a, st).

Definition throw {A} (e : Exn) : M A := fun st => (Throw e, st).

Definition bind {A B} (m : M A) (k : A -> M B) : M B :=
  fun st =>
    match m st with
    | (Ok a, st') => k a st'
    | (Throw e, st') => (Throw e, st')
    end.

Notation "x <- m ;; k" := (bind m (fun x => k))
  (at level 61, m at next level, right associativity).
Notation "m ;; k" := (bind m (fun _ => k))
  (at level 61, right associativity).

(** [try { m } catch (error) { h error }] *)
Definition try_catch {A} (m : M A) (h : Exn -> M A) : M A :=
  fun st =>
    match m st with
    | (Ok a, st') => (Ok a, st')
    | (Throw e, st') => h e st'
    end.

(** [try { m } finally { f }]: [f] runs however [m] ended, and [m]'s
    outcome stands unless [f] throws. *)
Definition try_finally {A} (m : M A) (f : M unit) : M A :=
  fun st =>
    let (r, st') := m st in
    match f st' with
    | (Ok _, st'') => (r, st'')
    | (Throw e, st'') => (Throw e, st'')
    end.

(** Runs [m] and hands its outcome over as a value. *)
Definition attempt {A} (m : M A) : M (Result A) :=
  fun st => let (r, st') := m st in (Ok r, st').

Definition get_this : M Component := fun st => (Ok (this st), st).

Definition modify_this (f : Component -> Component) : M unit :=
  fun st => (Ok tt, mkState (f (this st)) (listeners st) (serial st) (ext st) (log st)).

(** Runs a call of the external world and logs it. *)
Definition external {A} (call : Ext -> Result A * Ext) (ev : Result A -> Event) : M A :=
  fun st =>
    let (r, x) := call (ext st) in
    (r, mkState (this st) (listeners st) (serial st) x (log st ++ [ev r])).

(** Reads [this.phoneInput.intlTelInput] and tells whether it is set. *)
Definition service_factory : M bool :=
  fun st => (Ok (service_intlTelInput (ext st)), st).

Definition call_plugin (p : Plugin) (m : Method) : M JsVal :=
  external (plugin_call p m) (EvPlugin p m).

(** [this.update(number, meta)] *)
Definition call_update (number meta : JsVal) : M unit :=
  c <- get_this ;;
  match update c with
  | Some f => external (host_update f number meta) (EvUpdate f number meta)
  | None => ret tt
  end.

(** [element.addEventListener(type, f)] *)
Definition addEventListener (element : Element) (ty : string) (f : Listener) : M unit :=
  fun st => (Ok tt, mkState (this st) (dom_add (element, ty, f) (listeners st))
                            (serial st) (ext st) (log st)).

(** [element.removeEventListener(type, f)] *)
Definition removeEventListener (element : Element) (ty : string) (f : Listener) : M unit :=
  fun st => (Ok tt, mkState (this st) (dom_remove (element, ty, f) (listeners st))
                            (serial st) (ext st) (log st)).

(** [this.onCountryChange.bind(this)] *)
Definition bind_onCountryChange : M Listener :=
  fun st => (Ok (OnCountryChangeBound (serial st)),
             mkState (this st) (listeners st) (S (serial st)) (ext st) (log st)).

(** ** Getters *)

Definition country (c : Component) : JsVal := js_or (Args.country (args c)) (VString "").

Definition number (c : Component) : JsVal := js_or (Args.number (args c)) VNull.

Definition disabled (c : Component) : JsVal := js_or (Args.disabled (args c)) (VBool false).

Definition required (c : Component) : JsVal := js_or (Args.required (args c)) (VBool false).

Definition autocomplete (c : Component) : JsVal := js_or (Args.autocomplete (args c)) VNull.

Definition allowDropdown (c : Component) : JsVal :=
  if isPresent (Args.allowDropdown (args c)) then Args.allowDropdown (args c) else VBool true.

Definition autoPlaceholder (c : Component) : JsVal :=
  js_or (Args.autoPlaceholder (args c)) (VString "polite").

Definition customPlaceholder (c : Component) : JsVal :=
  js_or (Args.customPlaceholder (args c)) VNull.

Definition initialCountry (c : Component) : JsVal :=
  js_or (Args.initialCountry (args c)) (VString "").

Definition onlyCountries (c : Component) : JsVal :=
  js_or (Args.onlyCountries (args c)) (VArray []).

Definition preferredCountries (c : Component) : JsVal :=
  js_or (Args.preferredCountries (args c)) (VArray [VString "us"; VString "gb"]).

Definition separateDialCode (c : Component) : JsVal :=
  js_or (Args.separateDialCode (args c)) (VBool false).

(** ** The constructor *)

(** The component after [super(owner, args)] and the field initialisers. *)
Definition initial (a : Args.t) : Component :=
  mkComponent a false "tel" None None false false.

Definition customPlaceholder_message : string :=
  "`customPlaceholder` must be of type string".

Definition autoPlaceholder_message : string :=
  "`autoPlaceholder` possible values are 'polite', 'aggressive' and 'off'".

Definition constructor (a : Args.t) : Result Component :=
  let c := set_update (Args.update a) (initial a) in
  match (if truthy (customPlaceholder c)
         then assert customPlaceholder_message (typeof (customPlaceholder c) =? "string")
         else Ok tt) with
  | Throw e => Throw e
  | Ok _ =>
    let validAutoPlaceholder :=
      includes [VString "polite"; VString "aggressive"; VString "off"; VUndefined]
               (autoPlaceholder c) in
    match assert autoPlaceholder_message validAutoPlaceholder with
    | Throw e => Throw e
    | Ok _ => Ok c
    end
  end.

(** ** Metadata *)

(** The value under [key] in the properties of an object literal. *)
Fixpoint lookup_prop (key : string) (props : list (string * JsVal)) : JsVal :=
  match props with
  | [] => VUndefined
  | (k, v) :: rest => if k =? key then v else lookup_prop key rest
  end.

(** [v?.key]: a property read that gives [undefined] on anything but an
    object with that property. *)
Definition get_prop (v : JsVal) (key : string) : JsVal :=
  match v with
  | VObject props => lookup_prop key props
  | _ => VUndefined
  end.

(** The object literal [metaData] returns for a plugin. *)
Definition MetaData (extension selectedCountryData valid numberFormat : JsVal) : JsVal :=
  VObject [("extension", extension);
           ("selectedCountryData", selectedCountryData);
           ("isValidNumber", valid);
           ("numberFormat", numberFormat)].

(** The object literal with the four formats. *)
Definition NumberFormat (e164 international national rfc3966 : JsVal) : JsVal :=
  VObject [("E164", e164);
           ("INTERNATIONAL", international);
           ("NATIONAL", national);
           ("RFC3966", rfc3966)].

Definition metaData (intlTelInputPlugin : option Plugin) : M JsVal :=
  match intlTelInputPlugin with
  | None => ret (VObject [])
  | Some p =>
    extension <- call_plugin p getExtension ;;
    selectedCountryData <- call_plugin p getSelectedCountryData ;;
    valid <- call_plugin p isValidNumber ;;
    e164 <- call_plugin p (getNumber (Some E164)) ;;
    international <- call_plugin p (getNumber (Some INTERNATIONAL)) ;;
    national <- call_plugin p (getNumber (Some NATIONAL)) ;;
    rfc3966 <- call_plugin p (getNumber (Some RFC3966)) ;;
    ret (MetaData extension selectedCountryData valid
           (if truthy valid
            then NumberFormat e164 international national rfc3966
            else VNull))
  end.

(** ** Handlers and private methods *)

Definition formatNumber : M unit :=
  c <- get_this ;;
  match intlTelInputInstance c with
  | None => ret tt
  | Some p =>
    (if truthy (country c)
     then call_plugin p (setCountry (country c)) ;; ret tt
     else ret tt) ;;
    (if truthy (number c)
     then call_plugin p (setNumber (number c)) ;; ret tt
     else ret tt)
  end.

Definition setupLibrary (element : Element) : M unit :=
  factory <- service_factory ;;
  if negb factory then ret tt else
  c <- get_this ;;
  let options :=
    Options.mk false true fr
      (allowDropdown c) (autoPlaceholder c) (initialCountry c)
      (onlyCountries c) (preferredCountries c) (separateDialCode c)
      (if truthy (customPlaceholder c) then Some (customPlaceholder c) else None) in
  intlTelInputInstance' <-
    external (service_construct element options) (EvConstruct element options) ;;
  (if truthy (number c)
   then call_plugin intlTelInputInstance' (setNumber (number c)) ;; ret tt
   else ret tt) ;;
  modify_this (set_intlTelInputInstance (Some intlTelInputInstance')) ;;
  (if truthy (initialCountry c)
   then call_plugin intlTelInputInstance' (setCountry (initialCountry c)) ;; ret tt
   else ret tt) ;;
  meta <- metaData (Some intlTelInputInstance') ;;
  call_update (number c) meta.

(** [onInput(event?)].  The argument is the value of the event's target
    when an event is given. *)
Definition onInput (event : option JsVal) : M bool :=
  c <- get_this ;;
  fromPlugin <-
    match intlTelInputInstance c with
    | Some p => call_plugin p (getNumber None)
    | None => ret VUndefined
    end ;;
  internationalPhoneNumber <-
    match fromPlugin with
    | VUndefined | VNull =>
      match event with
      | Some value => ret value
      | None => throw (TypeError "Cannot read properties of undefined (reading 'value')")
      end
    | v => ret v
    end ;;
  meta <- metaData (intlTelInputInstance c) ;;
  call_update internationalPhoneNumber meta ;;
  ret true.

Definition onDidUpdate : M unit := formatNumber.

Definition onCountryChange : M unit :=
  c <- get_this ;;
  selectedCountry <-
    match intlTelInputInstance c with
    | Some p => call_plugin p getSelectedCountryData
    | None => ret VUndefined
    end ;;
  (if truthy (get_prop selectedCountry "iso2")
   then match intlTelInputInstance c with
        | Some p => call_plugin p (setCountry (get_prop selectedCountry "iso2")) ;; ret tt
        | None => ret tt
        end
   else ret tt) ;;
  onInput None ;;
  ret tt.

Definition onDestroy (element : Element) : M unit :=
  c <- get_this ;;
  match intlTelInputInstance c with
  | Some p => call_plugin p destroy ;; ret tt
  | None => ret tt
  end ;;
  removeEventListener element "countrychange" OnCountryChangeMethod.

(** ** The asynchronous mount *)

(** How a promise ends. *)
Inductive Settled : Type :=
| Fulfilled
| Rejected (error : Exn).

(** The promise of an [async] function: still waiting at its [await], or
    settled. *)
Inductive Async : Type :=
| Pending
| Done (s : Settled).

(** An [async] function never throws to its caller: a throw that leaves
    its body rejects its promise. *)
Definition settle (body : M unit) : M Settled :=
  r <- attempt body ;;
  match r with
  | Ok _ => ret Fulfilled
  | Throw e => ret (Rejected e)
  end.

(** The [catch] block of [loadAndSetup]: [this.args.onError?.(error)]. *)
Definition loadAndSetup_catch (error : Exn) : M unit :=
  c <- get_this ;;
  match Args.onError (args c) with
  | Some f => external (host_onError f error) (EvOnError f error)
  | None => ret tt
  end.

(** The [finally] block of [loadAndSetup]. *)
Definition loadAndSetup_finally : M unit :=
  c <- get_this ;;
  if negb (isDestroying c) && negb (isDestroyed c)
  then modify_this (set_isLoadingIntlTelInput false)
  else ret tt.

(** The [try] statement around a part of the body. *)
Definition loadAndSetup_try (body : M unit) : M Settled :=
  settle (try_finally (try_catch body loadAndSetup_catch) loadAndSetup_finally).

(** The body after the [await] when the promise of [load] is fulfilled. *)
Definition loadAndSetup_continue (element : Element) : M unit :=
  c <- get_this ;;
  if isDestroying c || isDestroyed c then ret tt else
  setupLibrary element ;;
  formatNumber ;;
  f <- bind_onCountryChange ;;
  addEventListener element "countrychange" f.

(** [loadAndSetup] up to its [await]: sets the flag and calls [load].
    When [load] throws instead of returning a promise, [catch] and
    [finally] run at once. *)
Definition loadAndSetup_start (element : Element) : M Async :=
  modify_this (set_isLoadingIntlTelInput true) ;;
  promise <- attempt (external service_load EvLoad) ;;
  match promise with
  | Ok _ => ret Pending
  | Throw e => s <- loadAndSetup_try (throw e) ;; ret (Done s)
  end.

(** [loadAndSetup] from its [await] on, once the promise of [load] has
    settled as [s]. *)
Definition loadAndSetup_resume (element : Element) (s : Settled) : M Settled :=
  loadAndSetup_try
    match s with
    | Fulfilled => loadAndSetup_continue element
    | Rejected e => throw e
    end.

(** [onDidInsert] starts [loadAndSetup] and drops its promise. *)
Definition onDidInsert (element : Element) : M unit :=
  loadAndSetup_start element ;; ret tt.

(** ** The framework's part of a teardown *)

Definition mark_destroying : M unit := modify_this (set_isDestroying true).

Definition mark_destroyed : M unit := modify_this (set_isDestroyed true).

(** A destruction of the component as Glimmer runs it: the component is
    marked as destroying, the [will-destroy] modifier calls [onDestroy],
    and the component ends up destroyed. *)
Definition unmount (element : Element) : M unit :=
  mark_destroying ;; onDestroy element ;; mark_destroyed.

End PhoneInput.

(** ** Reading the log *)

Section Traces.
Context {world : External}.

(** A call of the plugin's formatter: [getNumber] with a format kind. *)
Definition is_formatter_call (ev : Event) : bool :=
  match ev with
  | EvPlugin _ (getNumber (Some _)) _ => true
  | _ => false
  end.

Definition is_setNumber (ev : Event) : bool :=
  match ev with
  | EvPlugin _ (setNumber _) _ => true
  | _ => false
  end.

Definition is_setCountry (ev : Event) : bool :=
  match ev with
  | EvPlugin _ (setCountry _) _ => true
  | _ => false
  end.

(** A construction of a plugin or a call of one. *)
Definition is_plugin_event (ev : Event) : bool :=
  match ev with
  | EvConstruct _ _ _ | EvPlugin _ _ _ => true
  | _ => false
  end.

Definition is_onError (ev : Event) : bool :=
  match ev with
  | EvOnError _ _ _ => true
  | _ => false
  end.

Definition count (f : Event -> bool) (evs : list Event) : nat :=
  length (filter f evs).

(** The argument of a [setNumber] or [setCountry] call, if [ev] is one. *)
Definition setter_argument (ev : Event) : option JsVal :=
  match ev with
  | EvPlugin _ (setNumber v) _ | EvPlugin _ (setCountry v) _ => Some v
  | _ => None
  end.

(** However [m] ends, it has only added events that satisfy [P] to the
    log. *)
Definition emits {A} (P : Event -> Prop) (m : M A) : Prop :=
  forall st r st', m st = (r, st') ->
    exists evs, log st' = log st ++ evs /\ Forall P evs.

(** The calls [metaData] makes on a plugin when none of them throws, with
    what each returned. *)
Definition metaData_calls (p : Plugin)
    (extension selectedCountryData valid e164 international national rfc3966 : JsVal)
  : list Event :=
  [EvPlugin p getExtension (Ok extension);
   EvPlugin p getSelectedCountryData (Ok selectedCountryData);
   EvPlugin p isValidNumber (Ok valid);
   EvPlugin p (getNumber (Some E164)) (Ok e164);
   EvPlugin p (getNumber (Some INTERNATIONAL)) (Ok international);
   EvPlugin p (getNumber (Some NATIONAL)) (Ok national);
   EvPlugin p (getNumber (Some RFC3966)) (Ok rfc3966)].

(** No method of [p] throws, in any state of the world. *)
Definition plugin_never_throws (p : Plugin) : Prop :=
  forall m x, exists v x', plugin_call p m x = (Ok v, x').

End Traces.

(** ** More on runs: invariants, and calls that happen at most once *)

Section Runs.
Context {world : External}.

Definition is_construct (ev : Event) : bool :=
  match ev with
  | EvConstruct _ _ _ => true
  | _ => false
  end.

Definition is_update (ev : Event) : bool :=
  match ev with
  | EvUpdate _ _ _ _ => true
  | _ => false
  end.

Definition is_destroy (ev : Event) : bool :=
  match ev with
  | EvPlugin _ destroy _ => true
  | _ => false
  end.

(** A call of one of the plugin's reading methods. *)
Definition is_getter (ev : Event) : bool :=
  match ev with
  | EvPlugin _ (getNumber _) _ | EvPlugin _ getExtension _
  | EvPlugin _ getSelectedCountryData _ | EvPlugin _ isValidNumber _ => true
  | _ => false
  end.

(** Started on a component that satisfies [I], [m] leaves one that does,
    however it ends, and has only added events that satisfy [P]. *)
Definition keeps (I : Component -> Prop) (P : Event -> Prop) {A} (m : M A) : Prop :=
  forall st r st', I (this st) -> m st = (r, st') ->
    I (this st') /\ exists evs, log st' = log st ++ evs /\ Forall P evs.

(** However [m] ends, the events it has added hold at most one that
    satisfies [f]. *)
Definition at_most_once (f : Event -> bool) {A} (m : M A) : Prop :=
  forall st r st', m st = (r, st') ->
    exists evs, log st' = log st ++ evs /\ count f evs <= 1.

(** However [m] ends, the listeners and the serial number are as they
    were. *)
Definition keeps_listeners {A} (m : M A) : Prop :=
  forall st r st', m st = (r, st') ->
    listeners st' = listeners st /\ serial st' = serial st.

(** Whenever [m] returns, what it returns satisfies [Q]. *)
Definition returns {A} (Q : A -> Prop) (m : M A) : Prop :=
  forall st a st', m st = (Ok a, st') -> Q a.

(** The component is neither destroying nor destroyed. *)
Definition live (c : Component) : Prop :=
  isDestroying c = false /\ isDestroyed c = false.

(** Every bound listener on an element is older than the next serial
    number. *)
Definition serials_fresh (st : State) : Prop :=
  forall el ty k, In (el, ty, OnCountryChangeBound k) (listeners st) -> k < serial st.

(** The options [setupLibrary] builds, for what their fixed and checked
    fields hold. *)
Definition options_checked (o : Options.t) : Prop :=
  Options.autoInsertDialCode o = false
  /\ Options.nationalMode o = true
  /\ Options.i18n o = fr
  /\ (Options.autoPlaceholder o = VString "polite"
      \/ Options.autoPlaceholder o = VString "aggressive"
      \/ Options.autoPlaceholder o = VString "off")
  /\ (Options.customPlaceholder o = None
      \/ exists s, Options.customPlaceholder o = Some (VString s) /\ s <> "").

Definition construct_checked (ev : Event) : Prop :=
  match ev with
  | EvConstruct _ o _ => options_checked o
  | _ => True
  end.

(** A part [J] of the states of the world in which nothing throws: there
    every call of the plugin, of the factory and of [update] returns and
    leaves a state of [J]. *)
Definition calm (J : Ext -> Prop) : Prop :=
  (forall p m x, J x -> exists v x', plugin_call p m x = (Ok v, x') /\ J x')
  /\ (forall el o x, J x ->
        exists p x', service_construct el o x = (Ok p, x') /\ J x')
  /\ (forall f n m x, J x -> exists u x', host_update f n m x = (Ok u, x') /\ J x').

(** What a mount logs after the construction of the plugin [p]: calls of
    [p] and the [update] callback with the number [n]. *)
Definition mount_event (p : Plugin) (n : JsVal) (ev : Event) : Prop :=
  match ev with
  | EvPlugin q _ _ => q = p
  | EvUpdate _ n' _ _ => n' = n
  | _ => False
  end.

(** The reading methods [metaData] calls, in its order. *)
Definition metaData_methods : list Method :=
  [getExtension; getSelectedCountryData; isValidNumber;
   getNumber (Some E164); getNumber (Some INTERNATIONAL);
   getNumber (Some NATIONAL); getNumber (Some RFC3966)].

Definition method_of (ev : Event) : option Method :=
  match ev with
  | EvPlugin _ m _ => Some m
  | _ => None
  end.

(** The event is a call of the plugin that returned. *)
Definition returned (ev : Event) : bool :=
  match ev with
  | EvPlugin _ _ (Ok _) => true
  | _ => false
  end.

(** [a ?? b] *)
Definition nullish_or (a b : JsVal) : JsVal :=
  match a with
  | VUndefined | VNull => b
  | _ => a
  end.

(** The event is not the callback, or it is the callback with the number
    [n]. *)
Definition update_with (n : JsVal) (ev : Event) : Prop :=
  match ev with
  | EvUpdate _ n' _ _ => n' = n
  | _ => True
  end.

Definition FormatKind_eqb (a b : FormatKind) : bool :=
  match a, b with
  | E164, E164 | INTERNATIONAL, INTERNATIONAL
  | NATIONAL, NATIONAL | RFC3966, RFC3966 => true
  | _, _ => false
  end.

(** A call of the formatter for the format kind [k]. *)
Definition is_format (k : FormatKind) (ev : Event) : bool :=
  match ev with
  | EvPlugin _ (getNumber (Some k')) _ => FormatKind_eqb k k'
  | _ => false
  end.

(** What the plugin [p] answers to the seven reads of [metaData] when it
    is asked in the world [x0] and none of them throws: the extension,
    the selected country, the validity and the four formats, each read
    made in the world the one before left, the last leaving [x7]. *)
Definition metaData_chain (p : Plugin) (x0 : Ext)
    (extension selectedCountryData valid e164 international national rfc3966 : JsVal)
    (x7 : Ext) : Prop :=
  exists x1 x2 x3 x4 x5 x6,
    plugin_call p getExtension x0 = (Ok extension, x1)
    /\ plugin_call p getSelectedCountryData x1 = (Ok selectedCountryData, x2)
    /\ plugin_call p isValidNumber x2 = (Ok valid, x3)
    /\ plugin_call p (getNumber (Some E164)) x3 = (Ok e164, x4)
    /\ plugin_call p (getNumber (Some INTERNATIONAL)) x4 = (Ok international, x5)
    /\ plugin_call p (getNumber (Some NATIONAL)) x5 = (Ok national, x6)
    /\ plugin_call p (getNumber (Some RFC3966)) x6 = (Ok rfc3966, x7).

(** How a call that may throw ends a handler that returns nothing. *)
Definition outcome_unit {A} (o : Result A) : Result unit :=
  match o with
  | Ok _ => Ok tt
  | Throw e => Throw e
  end.

(** The number [onInput] goes on with, when [getNumber()] gave [n]: [n]
    itself, or for a null or undefined [n] the value of the event's
    target, which without an event is the read that throws. *)
Definition input_number (n : JsVal) (event : option JsVal) : option JsVal :=
  match n with
  | VUndefined | VNull => event
  | _ => Some n
  end.

(** The error of [(undefined).value] in [onInput]. *)
Definition onInput_TypeError : Exn :=
  TypeError "Cannot read properties of undefined (reading 'value')".

End Runs.

(** ** What the constructor checks *)

(** The custom placeholder is falsy or a string. *)
Definition customPlaceholder_ok (a : Args.t) : Prop :=
  truthy (Args.customPlaceholder a) = true ->
  exists s, Args.customPlaceholder a = VString s.

(** The auto placeholder is falsy or one of the three words. *)
Definition autoPlaceholder_ok (a : Args.t) : Prop :=
  truthy (Args.autoPlaceholder a) = true ->
  Args.autoPlaceholder a = VString "polite"
  \/ Args.autoPlaceholder a = VString "aggressive"
  \/ Args.autoPlaceholder a = VString "off".

(** ** A sample world *)

(** A small plugin and host to run the component against: the plugin
    stores one number and one country, reports the validity it is told to
    report, and formats by tagging the number with the format kind. *)
Module Sample.

Record World : Type := mkWorld {
  stored_number : JsVal;
  selected_country : JsVal;
  valid : bool;
  destroyed : bool;
  library_loaded : bool;
  load_error : option Exn;
  construct_error : option Exn
}.

Definition format_tag (k : FormatKind) : string :=
  match k with
  | E164 => "E164"
  | INTERNATIONAL => "INTERNATIONAL"
  | NATIONAL => "NATIONAL"
  | RFC3966 => "RFC3966"
  end.

Definition plugin (p : unit) (m : Method) (w : World) : Result JsVal * World :=
  match m with
  | getNumber None => (Ok (stored_number w), w)
  | getNumber (Some k) =>
    (Ok (VArray [VString (format_tag k); stored_number w]), w)
  | setNumber v =>
    (Ok VUndefined,
     mkWorld v (selected_country w) (valid w) (destroyed w)
             (library_loaded w) (load_error w) (construct_error w))
  | setCountry v =>
    (Ok VUndefined,
     mkWorld (stored_number w) v (valid w) (destroyed w)
             (library_loaded w) (load_error w) (construct_error w))
  | getExtension => (Ok (VString ""), w)
  | getSelectedCountryData => (Ok (VObject [("iso2", selected_country w)]), w)
  | isValidNumber => (Ok (VBool (valid w)), w)
  | destroy =>
    (Ok VUndefined,
     mkWorld (stored_number w) (selected_country w) (valid w) true
             (library_loaded w) (load_error w) (construct_error w))
  end.

Definition load (w : World) : Result unit * World :=
  match load_error w with
  | Some e => (Throw e, w)
  | None => (Ok tt, w)
  end.

Definition construct (element : Element) (o : Options.t) (w : World)
  : Result unit * World :=
  match construct_error w with
  | Some e => (Throw e, w)
  | None => (Ok tt, w)
  end.

(** The white space of ASCII: tab, line feed, vertical tab, form feed,
    carriage return and space. *)
Definition white_space (c : Ascii.ascii) : bool :=
  let n := Ascii.nat_of_ascii c in
  (Nat.leb 9 n && Nat.leb n 13) || Nat.eqb n 32.

(** No character of the string is anything but white space. *)
Fixpoint blank_string (s : string) : bool :=
  match s with
  | EmptyString => true
  | String c rest => white_space c && blank_string rest
  end.

(** [isPresent] of [@ember/utils] on the values of the model: null and
    undefined are not present, nor is a string of white space only, an
    empty array, or an object whose [size], or else [length], is the
    number 0 or NaN. *)
Definition present (v : JsVal) : bool :=
  match v with
  | VUndefined | VNull => false
  | VString s => negb (blank_string s)
  | VArray items => negb (Nat.eqb (length items) 0)
  | VObject props =>
    match lookup_prop "size" props with
    | VNumber n => truthy (VNumber n)
    | _ =>
      match lookup_prop "length" props with
      | VNumber n => truthy (VNumber n)
      | _ => true
      end
    end
  | VBool _ | VNumber _ => true
  end.

#[export] Instance world : External := {|
  Ext := World;
  Plugin := unit;
  isPresent := present;
  service_load := load;
  service_intlTelInput := library_loaded;
  service_construct := construct;
  plugin_call := plugin;
  host_update := fun _ _ _ w => (Ok tt, w);
  host_onError := fun _ _ w => (Ok tt, w)
|}.

(** A world with the library loaded and an empty plugin. *)
Definition ready (validity : bool) : World :=
  mkWorld (VString "") (VString "") validity false true None None.

(** Worlds where [load] throws and where the construction throws. *)
Definition failure : Exn := Thrown (VString "boom").

Definition load_throws : World :=
  mkWorld (VString "") (VString "") false false false (Some failure) None.

Definition construct_throws : World :=
  mkWorld (VString "") (VString "") false false true None (Some failure).

(** Arguments with a number and a country, a host callback and an error
    handler. *)
Definition some_args (n c : JsVal) : Args.t :=
  Args.mk n (Some 1) c VUndefined VUndefined VUndefined VUndefined
          VUndefined VUndefined VUndefined VUndefined VUndefined VUndefined (Some 2).

(** The component the constructor makes of [some_args]. *)
Definition component (n c : JsVal) : Component :=
  set_update (Some 1) (initial (some_args n c)).

(** The state around a component that has just been constructed. *)
Definition fresh (c : Component) (w : World) : State :=
  mkState c [] 0 w [].

Definition input : Element := 7.

(** A component with the number +14155552671, before its mount. *)
Definition st_new (validity : bool) : State :=
  fresh (component (VString "+14155552671") VUndefined) (ready validity).

(** The same after [onDidInsert], waiting for [load]. *)
Definition st_loading : State :=
  Eval vm_compute in snd (onDidInsert input (st_new true)).

(** The same once [load] is fulfilled and the mount is complete. *)
Definition st_mounted : State :=
  Eval vm_compute in snd (loadAndSetup_resume input Fulfilled st_loading).

(** The mounted component after a render that passes no number and no
    country. *)
Definition st_cleared : State :=
  Eval vm_compute in
    mkState (set_args (some_args VNull (VString "")) (this st_mounted))
            (listeners st_mounted) (serial st_mounted) (ext st_mounted)
            (log st_mounted).

(** The component unmounted while it waits for [load]. *)
Definition st_torn : State :=
  Eval vm_compute in snd (unmount input st_loading).

(** The mounted component after its unmount. *)
Definition st_unmounted : State :=
  Eval vm_compute in snd (unmount input st_mounted).

(** Components without arguments of their own in the worlds that fail. *)
Definition st_load_throws : State :=
  fresh (component VNull VNull) load_throws.

Definition st_construct_throws : State :=
  fresh (component VNull VNull) construct_throws.

(** The metadata of the mounted component. *)
Definition meta_mounted : JsVal :=
  MetaData (VString "") (VObject [("iso2", VString "")]) (VBool true)
    (NumberFormat (VArray [VString "E164"; VString "+14155552671"])
                  (VArray [VString "INTERNATIONAL"; VString "+14155552671"])
                  (VArray [VString "NATIONAL"; VString "+14155552671"])
                  (VArray [VString "RFC3966"; VString "+14155552671"])).

(** The metadata of a plugin that reports its number invalid. *)
Definition meta_invalid : JsVal :=
  MetaData (VString "") (VObject [("iso2", VString "")]) (VBool false) VNull.

(** The states [metaData] leaves behind. *)
Definition st_invalid_read : State :=
  Eval vm_compute in snd (metaData (Some tt) (st_new false)).

Definition st_mounted_read : State :=
  Eval vm_compute in snd (metaData (Some tt) st_mounted).

(** A live component whose service holds no library. *)
Definition st_no_library : State :=
  fresh (component (VString "+14155552671") VUndefined)
        (mkWorld (VString "") (VString "") true false false None None).

(** A component with a French number and the country fr, mounted. *)
Definition st_french : State :=
  Eval vm_compute in
    snd (loadAndSetup_resume input Fulfilled
           (snd (onDidInsert input
                   (fresh (component (VString "+33612345678") (VString "fr"))
                          (ready true))))).

(** The French component after a render that passes no number and the
    country us. *)
Definition st_country_only : State :=
  Eval vm_compute in
    mkState (set_args (some_args VNull (VString "us")) (this st_french))
            (listeners st_french) (serial st_french) (ext st_french)
            (log st_french).

(** The worlds whose factory does not throw. *)
Definition constructs (w : World) : Prop := construct_error w = None.

End Sample.

(** * Properties *)

Section Properties.
Context {world : External}.

(** ** Values *)

Lemma js_or_truthy (a b : JsVal) : truthy a = true -> js_or a b = a.
Proof. unfold js_or; intros ->; reflexivity. Qed.

Lemma js_or_falsy (a b : JsVal) : truthy a = false -> js_or a b = b.
Proof. unfold js_or; intros ->; reflexivity. Qed.

Lemma typeof_string (v : JsVal) :
  (typeof v =? "string") = true <-> exists s, v = VString s.
Proof.
  split.
  - destruct v; simpl; try discriminate; eauto.
  - intros [s ->]; reflexivity.
Qed.

Lemma includes_autoPlaceholder (v : JsVal) :
  includes [VString "polite"; VString "aggressive"; VString "off"; VUndefined] v = true
  <-> v = VString "polite" \/ v = VString "aggressive" \/ v = VString "off"
      \/ v = VUndefined.
Proof.
  unfold includes; split.
  - destruct v; cbn [existsb same_value_zero]; try (cbn; discriminate); auto.
    rewrite !orb_false_r, !orb_true_iff, !String.eqb_eq.
    intros [H | [H | H]]; subst; auto.
  - intros [-> | [-> | [-> | ->]]]; reflexivity.
Qed.

(** ** Construction *)

Lemma constructor_accepts (a : Args.t) :
  customPlaceholder_ok a -> autoPlaceholder_ok a ->
  constructor a = Ok (set_update (Args.update a) (initial a)).
Proof.
  intros Hc Ha.
  unfold constructor, customPlaceholder, autoPlaceholder.
  cbn [args set_update initial].
  assert (Hi : includes [VString "polite"; VString "aggressive"; VString "off"; VUndefined]
                 (js_or (Args.autoPlaceholder a) (VString "polite")) = true).
  { apply includes_autoPlaceholder.
    destruct (truthy (Args.autoPlaceholder a)) eqn:Ea.
    - rewrite (js_or_truthy _ _ Ea). destruct (Ha Ea) as [-> | [-> | ->]]; auto.
    - rewrite (js_or_falsy _ _ Ea); auto. }
  rewrite Hi.
  destruct (truthy (Args.customPlaceholder a)) eqn:Ec.
  - destruct (Hc Ec) as [s Hs].
    rewrite (js_or_truthy _ _ Ec), Ec, Hs; reflexivity.
  - rewrite (js_or_falsy _ _ Ec); reflexivity.
Qed.

(** C4 (as the code has it).  A configuration whose [autoPlaceholder] is
    truthy and not one of 'aggressive', 'off' and 'polite' makes the
    constructor fail with an assertion error.  A falsy [autoPlaceholder]
    (undefined, null, the empty string, false, 0, NaN) is replaced by
    'polite' before the check and does not make the constructor fail. *)
Theorem constructor_rejects_autoPlaceholder (a : Args.t) :
  (truthy (Args.autoPlaceholder a) = true ->
   Args.autoPlaceholder a <> VString "aggressive" ->
   Args.autoPlaceholder a <> VString "off" ->
   Args.autoPlaceholder a <> VString "polite" ->
   exists msg, constructor a = Throw (AssertionFailed msg)) /\
  (truthy (Args.autoPlaceholder a) = false ->
   customPlaceholder_ok a ->
   constructor a = Ok (set_update (Args.update a) (initial a))).
Proof.
  split.
  - intros Ht Ha Ho Hp.
    unfold constructor. cbv zeta.
    destruct (if truthy (customPlaceholder _) then _ else _) as [u|e] eqn:Ec.
    + unfold autoPlaceholder; cbn [args set_update initial].
      rewrite (js_or_truthy _ _ Ht).
      destruct (includes _ (Args.autoPlaceholder a)) eqn:Ei.
      * apply includes_autoPlaceholder in Ei.
        destruct Ei as [E | [E | [E | E]]]; try congruence.
        rewrite E in Ht; discriminate.
      * simpl. eauto.
    + destruct (truthy (customPlaceholder _)); [|discriminate].
      unfold assert in Ec.
      destruct (typeof _ =? "string"); [discriminate|].
      inversion Ec; eauto.
  - intros Ha Hc. apply constructor_accepts; [assumption|].
    intros H; congruence.
Qed.

(** C5 (as the code has it).  A configuration whose [customPlaceholder] is
    truthy and not a string makes the constructor fail with the assertion
    error of the custom placeholder.  A falsy [customPlaceholder]
    (undefined, null, false, 0, NaN, the empty string) is not checked and
    does not make the constructor fail. *)
Theorem constructor_rejects_customPlaceholder (a : Args.t) :
  (truthy (Args.customPlaceholder a) = true ->
   (forall s, Args.customPlaceholder a <> VString s) ->
   constructor a = Throw (AssertionFailed customPlaceholder_message)) /\
  (truthy (Args.customPlaceholder a) = false ->
   autoPlaceholder_ok a ->
   constructor a = Ok (set_update (Args.update a) (initial a))).
Proof.
  split.
  - intros Ht Hs. unfold constructor, customPlaceholder.
    cbn [args set_update initial].
    rewrite (js_or_truthy _ _ Ht), Ht.
    destruct (typeof (Args.customPlaceholder a) =? "string") eqn:E.
    + apply typeof_string in E. destruct E as [s E]. destruct (Hs s E).
    + reflexivity.
  - intros Hc Ha. apply constructor_accepts; [|assumption].
    intros H; congruence.
Qed.

(** ** Running the monad *)

Ltac unfold_monad :=
  unfold call_plugin, call_update, service_factory, addEventListener,
    removeEventListener, bind_onCountryChange, external, modify_this,
    get_this, attempt, try_finally, try_catch, throw, ret, bind in *.

Lemma emits_ret {A} (P : Event -> Prop) (a : A) : emits P (ret a).
Proof.
  intros st r st' H; inversion H; subst.
  exists []; rewrite app_nil_r; auto.
Qed.

Lemma emits_throw {A} (P : Event -> Prop) (e : Exn) : emits P (@throw _ A e).
Proof.
  intros st r st' H; inversion H; subst.
  exists []; rewrite app_nil_r; auto.
Qed.

Lemma emits_bind {A B} (P : Event -> Prop) (m : M A) (k : A -> M B) :
  emits P m -> (forall a, emits P (k a)) -> emits P (bind m k).
Proof.
  intros Hm Hk st r st' H. unfold bind in H.
  destruct (m st) as [[a|e] st1] eqn:E1.
  - destruct (Hm _ _ _ E1) as (evs1 & L1 & F1).
    destruct (Hk a _ _ _ H) as (evs2 & L2 & F2).
    exists (evs1 ++ evs2). rewrite L2, L1, app_assoc. split; auto.
    apply Forall_app; auto.
  - inversion H; subst. eauto.
Qed.

Lemma emits_get_this (P : Event -> Prop) : emits P get_this.
Proof.
  intros st r st' H; inversion H; subst.
  exists []; rewrite app_nil_r; auto.
Qed.

Lemma emits_silent {A} (P : Event -> Prop) (m : M A) :
  (forall st, log (snd (m st)) = log st) -> emits P m.
Proof.
  intros Hs st r st' H. specialize (Hs st). rewrite H in Hs; simpl in Hs.
  exists []; rewrite app_nil_r; auto.
Qed.

Lemma emits_external {A} (P : Event -> Prop)
      (call : Ext -> Result A * Ext) (ev : Result A -> Event) :
  (forall r, P (ev r)) -> emits P (external call ev).
Proof.
  intros HP st r st' H. unfold external in H.
  destruct (call (ext st)) as [r0 x]. inversion H; subst; simpl.
  exists [ev r]; auto.
Qed.

Lemma emits_if {A} (P : Event -> Prop) (b : bool) (m1 m2 : M A) :
  emits P m1 -> emits P m2 -> emits P (if b then m1 else m2).
Proof. destruct b; auto. Qed.

Lemma emits_try_catch {A} (P : Event -> Prop) (m : M A) (h : Exn -> M A) :
  emits P m -> (forall e, emits P (h e)) -> emits P (try_catch m h).
Proof.
  intros Hm Hh st r st' H. unfold try_catch in H.
  destruct (m st) as [[a|e] st1] eqn:E1.
  - inversion H; subst. eauto.
  - destruct (Hm _ _ _ E1) as (evs1 & L1 & F1).
    destruct (Hh e _ _ _ H) as (evs2 & L2 & F2).
    exists (evs1 ++ evs2). rewrite L2, L1, app_assoc. split; auto.
    apply Forall_app; auto.
Qed.

Lemma emits_try_finally {A} (P : Event -> Prop) (m : M A) (f : M unit) :
  emits P m -> emits P f -> emits P (try_finally m f).
Proof.
  intros Hm Hf st r st' H. unfold try_finally in H.
  destruct (m st) as [r1 st1] eqn:E1.
  destruct (f st1) as [r2 st2] eqn:E2.
  destruct (Hm _ _ _ E1) as (evs1 & L1 & F1).
  destruct (Hf _ _ _ E2) as (evs2 & L2 & F2).
  exists (evs1 ++ evs2).
  assert (st' = st2) by (destruct r2; inversion H; auto). subst st'.
  rewrite L2, L1, app_assoc. split; auto. apply Forall_app; auto.
Qed.

Lemma emits_attempt {A} (P : Event -> Prop) (m : M A) :
  emits P m -> emits P (attempt m).
Proof.
  intros Hm st r st' H. unfold attempt in H.
  destruct (m st) as [r1 st1] eqn:E1. inversion H; subst. eauto.
Qed.

Create HintDb emits.

#[local] Hint Resolve emits_ret emits_throw emits_get_this emits_if
  emits_try_catch emits_try_finally emits_attempt : emits.

Ltac emits_step :=
  first [ apply emits_bind; [|intros ?]
        | apply emits_external; intros ?; simpl; auto
        | apply emits_silent; intros ?; reflexivity
        | match goal with
          | |- emits _ (match ?x with _ => _ end) => destruct x
          end
        | solve [auto with emits] ].

Ltac emits_auto := repeat emits_step.

Lemma count_zero (f : Event -> bool) (evs : list Event) :
  Forall (fun ev => f ev = false) evs -> count f evs = 0.
Proof.
  unfold count. induction 1 as [|ev evs H _ IH]; simpl; [reflexivity|].
  rewrite H; assumption.
Qed.

Lemma count_app (f : Event -> bool) (xs ys : list Event) :
  count f (xs ++ ys) = count f xs + count f ys.
Proof. unfold count. rewrite filter_app, length_app. reflexivity. Qed.

(** ** Metadata *)

(** C6.  Called without a plugin, [metaData] returns the empty object
    literal, which is neither null nor undefined, calls nothing and
    changes nothing. *)
Theorem metaData_without_plugin (st : State) :
  metaData None st = (Ok (VObject []), st)
  /\ VObject [] <> VNull /\ VObject [] <> VUndefined.
Proof. repeat split; discriminate. Qed.

Ltac plugin_returns H :=
  repeat match type of H with
  | context [plugin_call ?p ?m ?x] =>
    let E := fresh "E" in
    destruct (plugin_call p m x) as [[?|?] ?] eqn:E; simpl in H;
    [|discriminate H]
  end.

Lemma metaData_returns (p : Plugin) (st : State) (m : JsVal) (st' : State) :
  metaData (Some p) st = (Ok m, st') ->
  exists extension selectedCountryData valid e164 international national rfc3966,
    m = MetaData extension selectedCountryData valid
          (if truthy valid
           then NumberFormat e164 international national rfc3966
           else VNull)
    /\ log st' = log st ++ metaData_calls p extension selectedCountryData valid
                            e164 international national rfc3966
    /\ this st' = this st /\ listeners st' = listeners st.
Proof.
  intros H. unfold metaData in H. unfold_monad. simpl in H.
  plugin_returns H.
  inversion H; subst; clear H. simpl.
  do 7 eexists. split; [reflexivity|].
  repeat rewrite <- app_assoc. simpl. auto.
Qed.

Lemma metaData_total (p : Plugin) (st : State) :
  plugin_never_throws p -> exists m st', metaData (Some p) st = (Ok m, st').
Proof.
  intros Hp. unfold metaData. unfold_monad. simpl.
  repeat match goal with
  | |- context [plugin_call p ?m ?x] =>
    let E := fresh "E" in
    destruct (Hp m x) as (? & ? & E); rewrite E; simpl
  end.
  eauto.
Qed.

(** From the answers of the plugin to what [metaData] returns. *)
Lemma metaData_produces (p : Plugin) (st : State)
    (ex scd v a b c d : JsVal) (x' : Ext) :
  metaData_chain p (ext st) ex scd v a b c d x' ->
  metaData (Some p) st
  = (Ok (MetaData ex scd v (if truthy v then NumberFormat a b c d else VNull)),
     mkState (this st) (listeners st) (serial st) x'
             (log st ++ metaData_calls p ex scd v a b c d)).
Proof.
  intros (x1 & x2 & x3 & x4 & x5 & x6 & H1 & H2 & H3 & H4 & H5 & H6 & H7).
  unfold metaData. unfold_monad. cbn [this listeners serial ext log].
  rewrite H1. cbn [this listeners serial ext log].
  rewrite H2. cbn [this listeners serial ext log].
  rewrite H3. cbn [this listeners serial ext log].
  rewrite H4. cbn [this listeners serial ext log].
  rewrite H5. cbn [this listeners serial ext log].
  rewrite H6. cbn [this listeners serial ext log].
  rewrite H7. cbn [this listeners serial ext log].
  repeat rewrite <- app_assoc. reflexivity.
Qed.

(** From what [metaData] returned to the answers of the plugin. *)
Lemma metaData_returns_chain (p : Plugin) (st : State) (m : JsVal) (st' : State) :
  metaData (Some p) st = (Ok m, st') ->
  exists ex scd v a b c d,
    metaData_chain p (ext st) ex scd v a b c d (ext st')
    /\ m = MetaData ex scd v (if truthy v then NumberFormat a b c d else VNull)
    /\ log st' = log st ++ metaData_calls p ex scd v a b c d.
Proof.
  intros H. unfold metaData in H. unfold_monad. simpl in H.
  plugin_returns H.
  inversion H; subst; clear H. simpl.
  do 7 eexists. split; [|split; [reflexivity|]].
  - unfold metaData_chain. do 6 eexists. repeat split; eassumption.
  - repeat rewrite <- app_assoc. reflexivity.
Qed.

Lemma metaData_calls_formats (p : Plugin) (ex scd v a b c d : JsVal) :
  (forall k, count (is_format k) (metaData_calls p ex scd v a b c d) = 1)
  /\ count is_formatter_call (metaData_calls p ex scd v a b c d) = 4.
Proof. split; [intros []; reflexivity | reflexivity]. Qed.

(** C7.  For every plugin, [metaData] turns the answers of the plugin
    into its result: when the seven reads return, it returns the metadata
    whose [numberFormat] is the object of exactly the four
    representations E164, INTERNATIONAL, NATIONAL and RFC3966, with the
    values the formatter gave, if the value [isValidNumber] gave is
    truthy, and null if it is falsy.  Nothing else is ever returned:
    whatever [metaData] returns comes from such answers.  It returns when
    no method of the plugin throws. *)
Theorem metaData_numberFormat (p : Plugin) (st : State) :
  (forall ex scd v a b c d x',
     metaData_chain p (ext st) ex scd v a b c d x' ->
     exists m,
       metaData (Some p) st
       = (Ok m, mkState (this st) (listeners st) (serial st) x'
                        (log st ++ metaData_calls p ex scd v a b c d))
       /\ get_prop m "isValidNumber" = v
       /\ (truthy v = true ->
           get_prop m "numberFormat"
           = VObject [("E164", a); ("INTERNATIONAL", b);
                      ("NATIONAL", c); ("RFC3966", d)])
       /\ (truthy v = false -> get_prop m "numberFormat" = VNull))
  /\ (forall m st', metaData (Some p) st = (Ok m, st') ->
     exists extension selectedCountryData valid e164 international national rfc3966,
       metaData_chain p (ext st) extension selectedCountryData valid
                      e164 international national rfc3966 (ext st')
       /\ log st' = log st ++ metaData_calls p extension selectedCountryData valid
                             e164 international national rfc3966
       /\ get_prop m "isValidNumber" = valid
       /\ (truthy valid = true ->
           get_prop m "numberFormat"
           = VObject [("E164", e164); ("INTERNATIONAL", international);
                      ("NATIONAL", national); ("RFC3966", rfc3966)])
       /\ (truthy valid = false -> get_prop m "numberFormat" = VNull))
  /\ (plugin_never_throws p -> exists m st', metaData (Some p) st = (Ok m, st')).
Proof.
  split; [|split; [|apply metaData_total]].
  - intros ex scd v a b c d x' Hc.
    eexists. split; [apply metaData_produces; exact Hc|].
    split; [reflexivity|].
    split; intros Hv; cbn; rewrite Hv; reflexivity.
  - intros m st' H.
    destruct (metaData_returns_chain _ _ _ _ H)
      as (ex & scd & v & a & b & c & d & Hc & -> & L).
    exists ex, scd, v, a, b, c, d. split; [exact Hc|]. split; [exact L|].
    split; [reflexivity|].
    split; intros Hv; cbn; rewrite Hv; reflexivity.
Qed.

(** C1 (as the code has it).  When the value [isValidNumber] gives is
    falsy, [metaData] returns with [numberFormat] null; the formatter has
    been called all the same, once for each of the four format kinds
    E164, INTERNATIONAL, NATIONAL and RFC3966 and in this order, after
    the validity was read and before it is looked at, and what it gave is
    dropped.  Whatever [metaData] returns, its log is that of these seven
    reads.  [metaData] returns when no method of the plugin throws. *)
Theorem metaData_invalid_number (p : Plugin) (st : State) :
  (forall ex scd v a b c d x',
     metaData_chain p (ext st) ex scd v a b c d x' ->
     truthy v = false ->
     metaData (Some p) st
     = (Ok (MetaData ex scd v VNull),
        mkState (this st) (listeners st) (serial st) x'
                (log st ++ [EvPlugin p getExtension (Ok ex);
                            EvPlugin p getSelectedCountryData (Ok scd);
                            EvPlugin p isValidNumber (Ok v);
                            EvPlugin p (getNumber (Some E164)) (Ok a);
                            EvPlugin p (getNumber (Some INTERNATIONAL)) (Ok b);
                            EvPlugin p (getNumber (Some NATIONAL)) (Ok c);
                            EvPlugin p (getNumber (Some RFC3966)) (Ok d)])))
  /\ (forall m st', metaData (Some p) st = (Ok m, st') ->
     exists ex scd v a b c d evs,
       metaData_chain p (ext st) ex scd v a b c d (ext st')
       /\ evs = metaData_calls p ex scd v a b c d
       /\ log st' = log st ++ evs
       /\ (forall k, count (is_format k) evs = 1)
       /\ count is_formatter_call evs = 4
       /\ (forall valid, In (EvPlugin p isValidNumber (Ok valid)) evs ->
             truthy valid = false -> get_prop m "numberFormat" = VNull))
  /\ (plugin_never_throws p -> exists m st', metaData (Some p) st = (Ok m, st')).
Proof.
  split; [|split; [|apply metaData_total]].
  - intros ex scd v a b c d x' Hc Hv.
    rewrite (metaData_produces _ _ _ _ _ _ _ _ _ _ Hc), Hv. reflexivity.
  - intros m st' H.
    destruct (metaData_returns_chain _ _ _ _ H)
      as (ex & scd & v & a & b & c & d & Hc & -> & L).
    exists ex, scd, v, a, b, c, d. eexists.
    split; [exact Hc|]. split; [reflexivity|]. split; [exact L|].
    destruct (metaData_calls_formats p ex scd v a b c d) as [Hk H4].
    split; [exact Hk|]. split; [exact H4|].
    intros valid Hin Hv. unfold metaData_calls in Hin. simpl in Hin.
    repeat (destruct Hin as [Hin | Hin]; try discriminate Hin); [|contradiction].
    inversion Hin; subst. cbn. rewrite Hv. reflexivity.
Qed.

(** ** Configuration updates *)

(** What a configuration update does not call. *)
Lemma formatNumber_frame (p : Plugin) (st : State) (r : Result unit)
    (st' : State) :
  intlTelInputInstance (this st) = Some p ->
  onDidUpdate st = (r, st') ->
  exists evs, log st' = log st ++ evs
    /\ (truthy (Args.number (args (this st))) = false -> count is_setNumber evs = 0)
    /\ (truthy (Args.country (args (this st))) = false -> count is_setCountry evs = 0)
    /\ (truthy (Args.number (args (this st))) = false ->
        truthy (Args.country (args (this st))) = false ->
        r = Ok tt /\ st' = st)
    /\ (forall ev v, In ev evs -> setter_argument ev = Some v ->
          truthy v = true /\ v <> VNull /\ v <> VString "").
Proof.
  intros Hp H. unfold onDidUpdate, formatNumber, number, country in H.
  unfold_monad. simpl in H. rewrite Hp in H. unfold js_or in H.
  assert (Hnn : forall v, truthy v = true -> v <> VNull /\ v <> VString "").
  { intros v Hv; split; intros ->; discriminate. }
  destruct (truthy (Args.country (args (this st)))) eqn:Ec;
    destruct (truthy (Args.number (args (this st)))) eqn:En;
    rewrite ?Ec, ?En in H; simpl in H;
    repeat match type of H with
    | context [plugin_call ?q ?m ?x] =>
      destruct (plugin_call q m x) as [[?|?] ?]; simpl in H
    end;
    inversion H; subst; clear H; simpl;
    repeat rewrite <- app_assoc; simpl;
    first [ eexists; split; [reflexivity|]
          | exists []; split; [symmetry; apply app_nil_r|] ];
    (split; [|split; [|split]]);
    try (intros; first [discriminate | reflexivity]);
    try (intros; split; reflexivity);
    intros ev v Hin Hs; simpl in Hin;
    repeat (destruct Hin as [Hin | Hin];
            [subst ev; inversion Hs; subst; split; [assumption | apply Hnn; assumption]|]);
    contradiction.
Qed.

(** A configuration update with a country and no number is the one call
    of [setCountry]; one with a number and no country is the one call of
    [setNumber]. *)
Lemma formatNumber_one_call (p : Plugin) (st : State) :
  intlTelInputInstance (this st) = Some p ->
  (truthy (Args.number (args (this st))) = false ->
   truthy (Args.country (args (this st))) = true ->
   onDidUpdate st
   = (outcome_unit (fst (plugin_call p (setCountry (Args.country (args (this st))))
                                     (ext st))),
      mkState (this st) (listeners st) (serial st)
        (snd (plugin_call p (setCountry (Args.country (args (this st)))) (ext st)))
        (log st ++ [EvPlugin p (setCountry (Args.country (args (this st))))
                      (fst (plugin_call p (setCountry (Args.country (args (this st))))
                                        (ext st)))])))
  /\ (truthy (Args.country (args (this st))) = false ->
      truthy (Args.number (args (this st))) = true ->
      onDidUpdate st
      = (outcome_unit (fst (plugin_call p (setNumber (Args.number (args (this st))))
                                        (ext st))),
         mkState (this st) (listeners st) (serial st)
           (snd (plugin_call p (setNumber (Args.number (args (this st)))) (ext st)))
           (log st ++ [EvPlugin p (setNumber (Args.number (args (this st))))
                         (fst (plugin_call p (setNumber (Args.number (args (this st))))
                                           (ext st)))]))).
Proof.
  intros Hp. split; intros H1 H2;
    unfold onDidUpdate, formatNumber, number, country, js_or;
    unfold_monad; rewrite Hp, H1, H2; cbn [truthy String.eqb negb];
    rewrite ?H1, ?H2; cbn [this listeners serial ext log];
    match goal with
    | |- context [plugin_call ?q ?m ?x] =>
      destruct (plugin_call q m x) as [[v|e] x']
    end; reflexivity.
Qed.

(** C10 (as the code has it).  On a component with a plugin, a
    configuration update whose number is falsy (null and the empty string
    are) calls no [setNumber], and one whose country is falsy calls no
    [setCountry].  When both are falsy the update returns with the whole
    state, the world of the plugin included, as it was; when only one is,
    the world of the plugin is what the one call for the other value
    leaves, so a country given without a number does change the selected
    country.  Every [setNumber] or [setCountry] the update calls has a
    truthy argument: neither null nor the empty string is ever written to
    the plugin. *)
Theorem onDidUpdate_keeps_when_empty (p : Plugin) (st : State) (r : Result unit)
    (st' : State) :
  intlTelInputInstance (this st) = Some p ->
  onDidUpdate st = (r, st') ->
  exists evs, log st' = log st ++ evs
    /\ (truthy (Args.number (args (this st))) = false -> count is_setNumber evs = 0)
    /\ (truthy (Args.country (args (this st))) = false -> count is_setCountry evs = 0)
    /\ (truthy (Args.number (args (this st))) = false ->
        truthy (Args.country (args (this st))) = false ->
        r = Ok tt /\ st' = st)
    /\ (forall ev v, In ev evs -> setter_argument ev = Some v ->
          truthy v = true /\ v <> VNull /\ v <> VString "")
    /\ (truthy (Args.number (args (this st))) = false ->
        truthy (Args.country (args (this st))) = true ->
        evs = [EvPlugin p (setCountry (Args.country (args (this st))))
                 (fst (plugin_call p (setCountry (Args.country (args (this st))))
                                   (ext st)))]
        /\ ext st'
           = snd (plugin_call p (setCountry (Args.country (args (this st)))) (ext st))
        /\ r = outcome_unit
                 (fst (plugin_call p (setCountry (Args.country (args (this st))))
                                   (ext st))))
    /\ (truthy (Args.country (args (this st))) = false ->
        truthy (Args.number (args (this st))) = true ->
        evs = [EvPlugin p (setNumber (Args.number (args (this st))))
                 (fst (plugin_call p (setNumber (Args.number (args (this st))))
                                   (ext st)))]
        /\ ext st'
           = snd (plugin_call p (setNumber (Args.number (args (this st)))) (ext st))
        /\ r = outcome_unit
                 (fst (plugin_call p (setNumber (Args.number (args (this st))))
                                   (ext st)))).
Proof.
  intros Hp H.
  destruct (formatNumber_frame p st r st' Hp H) as (evs & L & F1 & F2 & F3 & F4).
  destruct (formatNumber_one_call p st Hp) as [Hc Hn].
  exists evs. repeat (split; [assumption|]).
  split; intros H1 H2.
  - rewrite (Hc H1 H2) in H. inversion H; subst r st'; clear H.
    cbn [log ext] in L |- *. apply app_inv_head in L. subst evs. auto.
  - rewrite (Hn H1 H2) in H. inversion H; subst r st'; clear H.
    cbn [log ext] in L |- *. apply app_inv_head in L. subst evs. auto.
Qed.

(** ** The asynchronous mount *)

(** C8.  When the promise of [load] is fulfilled and the component is
    destroying or destroyed, [loadAndSetup] goes on to do nothing at all:
    its promise is fulfilled and the state is the one it resumed in, with
    no plugin constructed, no number or country applied, no listener
    registered, no callback called and the loading flag as it was. *)
Theorem loadAndSetup_resume_after_teardown (element : Element) (st : State) :
  isDestroying (this st) || isDestroyed (this st) = true ->
  loadAndSetup_resume element Fulfilled st = (Ok Fulfilled, st).
Proof.
  intros Hd.
  unfold loadAndSetup_resume, loadAndSetup_try, settle, loadAndSetup_continue,
    loadAndSetup_finally.
  unfold_monad. simpl. rewrite Hd. simpl.
  rewrite <- negb_orb, Hd. reflexivity.
Qed.

(** The [try] statement of [loadAndSetup] around any body: an error of
    the body reaches the handler once, or nobody when there is none, and
    the only thing that can reject the promise is the handler itself. *)
Lemma loadAndSetup_try_run (body : M unit) (st : State) :
  exists r st', loadAndSetup_try body st = (Ok r, st') /\
    match body st with
    | (Ok _, st1) => r = Fulfilled /\ log st' = log st1
    | (Throw e, st1) =>
      match Args.onError (args (this st1)) with
      | Some f =>
        log st' = log st1 ++ [EvOnError f e (fst (host_onError f e (ext st1)))]
        /\ r = match fst (host_onError f e (ext st1)) with
               | Ok _ => Fulfilled
               | Throw e' => Rejected e'
               end
      | None => r = Fulfilled /\ log st' = log st1
      end
    end
    /\ listeners st' = listeners (snd (body st))
    /\ this st'
       = if negb (isDestroying (this (snd (body st))))
            && negb (isDestroyed (this (snd (body st))))
         then set_isLoadingIntlTelInput false (this (snd (body st)))
         else this (snd (body st)).
Proof.
  unfold loadAndSetup_try, settle, loadAndSetup_catch, loadAndSetup_finally.
  unfold_monad.
  destruct (body st) as [[u|e] st1]; simpl.
  - destruct (negb (isDestroying (this st1)) && negb (isDestroyed (this st1)));
      simpl; eauto 10.
  - destruct (Args.onError (args (this st1))) as [f|]; simpl.
    + destruct (host_onError f e (ext st1)) as [[u|e'] x]; simpl;
        destruct (negb (isDestroying (this st1)) && negb (isDestroyed (this st1)));
        simpl; eauto 10.
    + destruct (negb (isDestroying (this st1)) && negb (isDestroyed (this st1)));
        simpl; eauto 10.
Qed.

Lemma loadAndSetup_continue_emits (element : Element) :
  emits (fun ev => is_onError ev = false) (loadAndSetup_continue element).
Proof.
  unfold loadAndSetup_continue, setupLibrary, formatNumber, metaData,
    call_plugin, call_update.
  emits_auto.
Qed.

(** [loadAndSetup] up to its [await], by what [load] does. *)
Lemma loadAndSetup_start_run (element : Element) (st : State) :
  match service_load (ext st) with
  | (Ok u, x) =>
    loadAndSetup_start element st
    = (Ok Pending,
       mkState (set_isLoadingIntlTelInput true (this st)) (listeners st)
               (serial st) x (log st ++ [EvLoad (Ok u)]))
  | (Throw e, x) =>
    exists s st',
      loadAndSetup_try (throw e)
        (mkState (set_isLoadingIntlTelInput true (this st)) (listeners st)
                 (serial st) x (log st ++ [EvLoad (Throw e)])) = (Ok s, st')
      /\ loadAndSetup_start element st = (Ok (Done s), st')
  end.
Proof.
  unfold loadAndSetup_start. unfold_monad.
  cbn [ext log this listeners serial].
  destruct (service_load (ext st)) as [[u|e] x]; [reflexivity|].
  match goal with
  | |- context [loadAndSetup_try ?b ?s] =>
    destruct (loadAndSetup_try_run b s) as (r & st' & Hr & _); rewrite Hr
  end.
  eauto.
Qed.


(** ** Teardown *)

(** C2 (as the code has it).  When a component without a plugin is
    mounted, unmounted while [load] is in flight, and [load] then
    settles, neither the mount nor the unmount throws, [loadAndSetup]
    throws to no caller, no plugin is constructed or called and no
    listener is registered; the loading flag stays set, because the
    [finally] block only clears it on a component that is neither
    destroying nor destroyed.  A fulfilled [load] adds nothing to the log
    and fulfils the promise of [loadAndSetup].  A rejected [load] adds the
    one call of [onError] when there is a handler and nothing otherwise,
    and the promise is fulfilled unless the handler itself throws: then
    it is rejected with the error of the handler. *)
Theorem unmount_during_load (element : Element) (s : Settled) (st : State)
    (u : unit) (x : Ext) :
  intlTelInputInstance (this st) = None ->
  service_load (ext st) = (Ok u, x) ->
  exists st1 st2 r st3 evs,
    onDidInsert element st = (Ok tt, st1)
    /\ unmount element st1 = (Ok tt, st2)
    /\ loadAndSetup_resume element s st2 = (Ok r, st3)
    /\ isLoadingIntlTelInput (this st3) = true
    /\ intlTelInputInstance (this st3) = None
    /\ listeners st3
       = dom_remove (element, "countrychange", OnCountryChangeMethod) (listeners st)
    /\ log st3 = log st ++ EvLoad (Ok u) :: evs
    /\ count is_plugin_event evs = 0
    /\ (s = Fulfilled -> r = Fulfilled /\ evs = [])
    /\ (forall e, s = Rejected e ->
          match Args.onError (args (this st)) with
          | None => r = Fulfilled /\ evs = []
          | Some f =>
            evs = [EvOnError f e (fst (host_onError f e x))]
            /\ r = match fst (host_onError f e x) with
                   | Ok _ => Fulfilled
                   | Throw e' => Rejected e'
                   end
          end).
Proof.
  intros Hp Hl.
  pose proof (loadAndSetup_start_run element st) as Hs. rewrite Hl in Hs.
  set (st1 := mkState (set_isLoadingIntlTelInput true (this st)) (listeners st)
                      (serial st) x (log st ++ [EvLoad (Ok u)])) in *.
  set (st2 := mkState (set_isDestroyed true (set_isDestroying true (this st1)))
                      (dom_remove (element, "countrychange", OnCountryChangeMethod)
                                  (listeners st1))
                      (serial st1) (ext st1) (log st1)).
  assert (H1 : onDidInsert element st = (Ok tt, st1)).
  { unfold onDidInsert. unfold bind at 1. rewrite Hs. reflexivity. }
  assert (H2 : unmount element st1 = (Ok tt, st2)).
  { unfold unmount, mark_destroying, mark_destroyed, onDestroy. unfold_monad.
    cbn. rewrite Hp. reflexivity. }
  unfold loadAndSetup_resume.
  match goal with
  | |- context [loadAndSetup_try ?b _] =>
    destruct (loadAndSetup_try_run b st2) as (r & st3 & Hr & Hc & Hls & Hth);
    set (body := b) in *
  end.
  assert (Hb : body st2 = (match s with Fulfilled => Ok tt | Rejected e => Throw e end, st2)).
  { subst body. destruct s; [|reflexivity].
    unfold loadAndSetup_continue. unfold_monad. reflexivity. }
  rewrite Hb in Hc, Hls, Hth. cbn [snd] in Hls, Hth.
  unfold st2, st1 in Hls, Hth.
  cbn [this listeners isDestroying isDestroyed set_isDestroyed set_isDestroying
       negb andb] in Hls, Hth.
  exists st1, st2, r, st3.
  assert (Hflag : isLoadingIntlTelInput (this st3) = true) by (rewrite Hth; reflexivity).
  assert (Hinst : intlTelInputInstance (this st3) = None) by (rewrite Hth; exact Hp).
  destruct s as [|e].
  - destruct Hc as [-> L]. exists [].
    repeat (split; [first [assumption | reflexivity]|]).
    split; [auto | intros e He; discriminate He].
  - cbn [this args ext st2 st1 set_isDestroyed set_isDestroying
         set_isLoadingIntlTelInput] in Hc.
    destruct (Args.onError (args (this st))) as [f|].
    + destruct Hc as [L R]. eexists.
      repeat (split; [first [assumption | reflexivity
                            | rewrite L; cbn; rewrite <- app_assoc; reflexivity]|]).
      split; [discriminate|].
      intros e0 He. inversion He; subst e0. split; [reflexivity | exact R].
    + destruct Hc as [R L]. exists [].
      repeat (split; [first [assumption | reflexivity]|]).
      split; [discriminate|].
      intros e0 He. split; [exact R | reflexivity].
Qed.

Lemma dom_remove_keeps_bound (element : Element) (reg : Registration)
      (rs : list Registration) :
  (exists k, snd reg = OnCountryChangeBound k) ->
  In reg rs ->
  In reg (dom_remove (element, "countrychange", OnCountryChangeMethod) rs).
Proof.
  intros [k Hk] Hin. unfold dom_remove. apply filter_In. split; [assumption|].
  destruct reg as [[el ty] f]. simpl in Hk; subst f. simpl.
  rewrite andb_false_r. reflexivity.
Qed.

(** C3 (what the code does).  [onDestroy] destroys the plugin when there
    is one and does not throw on a component without a plugin, but the
    listener that [loadAndSetup] registered stays on the element:
    [removeEventListener] is given the method itself, while the function
    registered is the new one made by [bind]. *)
Theorem onDestroy_keeps_countrychange_listener (element : Element) (st : State)
    (r : Result unit) (st' : State) (k : nat) :
  onDestroy element st = (r, st') ->
  In (element, "countrychange", OnCountryChangeBound k) (listeners st) ->
  In (element, "countrychange", OnCountryChangeBound k) (listeners st')
  /\ (forall p, intlTelInputInstance (this st) = Some p ->
        exists o, log st' = log st ++ [EvPlugin p destroy o])
  /\ (intlTelInputInstance (this st) = None -> r = Ok tt).
Proof.
  intros H Hin. unfold onDestroy in H. unfold_monad.
  destruct (intlTelInputInstance (this st)) as [p|] eqn:Ep.
  - destruct (plugin_call p destroy (ext st)) as [[v|e] x] eqn:Ed;
      cbn in H; inversion H; subst; clear H; cbn;
      (split; [|split; [intros q Hq; inversion Hq; subst; eauto | discriminate]]).
    + apply dom_remove_keeps_bound; [exists k; reflexivity | assumption].
    + assumption.
  - inversion H; subst; clear H; cbn.
    split; [apply dom_remove_keeps_bound; [exists k; reflexivity | assumption]|].
    split; [discriminate | reflexivity].
Qed.

(** ** Invariants of a run *)

Lemma keeps_ret {A} I P (a : A) : keeps I P (ret a).
Proof.
  intros st r st' Hi H; inversion H; subst. split; [assumption|].
  exists []; rewrite app_nil_r; auto.
Qed.

Lemma keeps_throw {A} I P (e : Exn) : keeps I P (@throw _ A e).
Proof.
  intros st r st' Hi H; inversion H; subst. split; [assumption|].
  exists []; rewrite app_nil_r; auto.
Qed.

Lemma keeps_bind {A B} I P (m : M A) (k : A -> M B) :
  keeps I P m -> (forall a, keeps I P (k a)) -> keeps I P (bind m k).
Proof.
  intros Hm Hk st r st' Hi H. unfold bind in H.
  destruct (m st) as [[a|e] st1] eqn:E1.
  - destruct (Hm _ _ _ Hi E1) as (Hi1 & evs1 & L1 & F1).
    destruct (Hk a _ _ _ Hi1 H) as (Hi2 & evs2 & L2 & F2).
    split; [assumption|].
    exists (evs1 ++ evs2). rewrite L2, L1, app_assoc. split; auto.
    apply Forall_app; auto.
  - inversion H; subst. eauto.
Qed.

(** After [get_this] the rest may rely on the invariant of what it read. *)
Lemma keeps_bind_this {B} (I : Component -> Prop) P (k : Component -> M B) :
  (forall c, I c -> keeps I P (k c)) -> keeps I P (bind get_this k).
Proof.
  intros Hk st r st' Hi H. unfold bind, get_this in H.
  exact (Hk (this st) Hi _ _ _ Hi H).
Qed.

Lemma keeps_external {A} I P (call : Ext -> Result A * Ext) (ev : Result A -> Event) :
  (forall r, P (ev r)) -> keeps I P (external call ev).
Proof.
  intros HP st r st' Hi H. unfold external in H.
  destruct (call (ext st)) as [r0 x]. inversion H; subst; simpl.
  split; [assumption|]. exists [ev r]; auto.
Qed.

Lemma keeps_modify_this (I : Component -> Prop) P (f : Component -> Component) :
  (forall c, I c -> I (f c)) -> keeps I P (modify_this f).
Proof.
  intros Hf st r st' Hi H. inversion H; subst; simpl.
  split; [auto|]. exists []; rewrite app_nil_r; auto.
Qed.

(** Operations on the listeners and the serial number touch neither the
    component nor the log. *)
Lemma keeps_quiet {A} I P (m : M A) :
  (forall st, this (snd (m st)) = this st /\ log (snd (m st)) = log st) ->
  keeps I P m.
Proof.
  intros Hq st r st' Hi H. destruct (Hq st) as [Ht Hl].
  rewrite H in Ht, Hl; simpl in Ht, Hl. rewrite Ht. split; [assumption|].
  exists []; rewrite app_nil_r; auto.
Qed.

Lemma keeps_try_catch {A} I P (m : M A) (h : Exn -> M A) :
  keeps I P m -> (forall e, keeps I P (h e)) -> keeps I P (try_catch m h).
Proof.
  intros Hm Hh st r st' Hi H. unfold try_catch in H.
  destruct (m st) as [[a|e] st1] eqn:E1.
  - inversion H; subst. eauto.
  - destruct (Hm _ _ _ Hi E1) as (Hi1 & evs1 & L1 & F1).
    destruct (Hh e _ _ _ Hi1 H) as (Hi2 & evs2 & L2 & F2).
    split; [assumption|].
    exists (evs1 ++ evs2). rewrite L2, L1, app_assoc. split; auto.
    apply Forall_app; auto.
Qed.

Ltac keeps_step side :=
  first [ apply keeps_bind_this; intros ? ?
        | apply keeps_bind; [|intros ?]
        | apply keeps_ret
        | apply keeps_throw
        | apply keeps_external; intros ?; solve [side]
        | apply keeps_modify_this; intros ? ?; solve [side]
        | apply keeps_quiet; intros ?; split; reflexivity
        | match goal with
          | |- keeps _ _ (match ?x with _ => _ end) => destruct x eqn:?
          end ].

Ltac keeps_auto side := repeat keeps_step side.

(** The body of [loadAndSetup] changes no field of the component but
    [intlTelInputInstance]. *)
Lemma loadAndSetup_continue_keeps (element : Element) (c0 : Component) :
  keeps (fun c => isDestroying c = isDestroying c0
                  /\ isDestroyed c = isDestroyed c0
                  /\ args c = args c0 /\ update c = update c0
                  /\ isLoadingIntlTelInput c = isLoadingIntlTelInput c0)
        (fun _ => True) (loadAndSetup_continue element).
Proof.
  unfold loadAndSetup_continue, setupLibrary, formatNumber, metaData,
    call_plugin, call_update, service_factory.
  keeps_auto ltac:(first [exact I | cbn; intuition]).
Qed.


(** X2.  When [load] is fulfilled on a live component while the service
    holds no library ([phoneInput.intlTelInput] is unset), [loadAndSetup]
    constructs nothing and calls nobody, but it still registers a
    country-change listener and clears the loading flag: the component is
    left without a plugin and with a listener. *)
Theorem loadAndSetup_without_library (element : Element) (st : State) :
  live (this st) ->
  service_intlTelInput (ext st) = false ->
  intlTelInputInstance (this st) = None ->
  loadAndSetup_resume element Fulfilled st
  = (Ok Fulfilled,
     mkState (set_isLoadingIntlTelInput false (this st))
             (dom_add (element, "countrychange", OnCountryChangeBound (serial st))
                      (listeners st))
             (S (serial st)) (ext st) (log st)).
Proof.
  intros [Hd1 Hd2] Hf Hp.
  unfold loadAndSetup_resume, loadAndSetup_try, settle, loadAndSetup_continue,
    loadAndSetup_finally, setupLibrary, formatNumber.
  unfold_monad. cbn.
  repeat (progress (rewrite ?Hd1, ?Hd2, ?Hf, ?Hp; cbn)).
  reflexivity.
Qed.

(** ** Input and country changes *)

(** X3.  Without a plugin, [onInput] hands the raw value of the input and
    the empty metadata object to the callback, once, and returns true
    unless the callback throws; called without an event it throws a
    [TypeError] before anything is called. *)
Theorem onInput_without_plugin (st : State) :
  intlTelInputInstance (this st) = None ->
  onInput None st = (Throw onInput_TypeError, st)
  /\ (forall value, update (this st) = None ->
        onInput (Some value) st = (Ok true, st))
  /\ (forall value f, update (this st) = Some f ->
        exists o st',
          onInput (Some value) st
          = (match o with Ok _ => Ok true | Throw e => Throw e end, st')
          /\ log st' = log st ++ [EvUpdate f value (VObject []) o]
          /\ this st' = this st /\ listeners st' = listeners st).
Proof.
  intros Hp. unfold onInput, metaData. unfold_monad. rewrite Hp. cbn.
  split; [reflexivity|]. split.
  - intros value Hu. rewrite Hu. reflexivity.
  - intros value f Hu. rewrite Hu.
    destruct (host_update f value (VObject []) (ext st)) as [[u|e] x]; cbn.
    + exists (Ok u). eexists. repeat split; reflexivity.
    + exists (Throw e). eexists. repeat split; reflexivity.
Qed.

(** X4.  Without a plugin, [onCountryChange] always throws the
    [TypeError] of [onInput] called without an event, and calls nothing:
    the listener that [loadAndSetup] registers without a library (X2)
    can only fail. *)
Theorem onCountryChange_without_plugin (st : State) :
  intlTelInputInstance (this st) = None ->
  onCountryChange st = (Throw onInput_TypeError, st).
Proof.
  intros Hp. unfold onCountryChange, onInput, metaData. unfold_monad.
  rewrite Hp. cbn. rewrite Hp. reflexivity.
Qed.

(** ** Calls that happen at most once *)

Ltac emits_more :=
  repeat first [ emits_step
               | apply emits_attempt
               | apply emits_try_finally
               | apply emits_try_catch; [|intros ?] ].

Lemma amo_zero {A} (f : Event -> bool) (m : M A) :
  emits (fun ev => f ev = false) m -> at_most_once f m.
Proof.
  intros Hm st r st' H. destruct (Hm _ _ _ H) as (evs & L & F).
  exists evs. split; [assumption|]. rewrite (count_zero _ _ F). lia.
Qed.

Lemma amo_external {A} (f : Event -> bool)
      (call : Ext -> Result A * Ext) (ev : Result A -> Event) :
  at_most_once f (external call ev).
Proof.
  intros st r st' H. unfold external in H.
  destruct (call (ext st)) as [r0 x]. inversion H; subst; simpl.
  exists [ev r]. split; [reflexivity|]. unfold count; simpl.
  destruct (f (ev r)); simpl; lia.
Qed.

Lemma amo_bind_l {A B} (f : Event -> bool) (m : M A) (k : A -> M B) :
  emits (fun ev => f ev = false) m -> (forall a, at_most_once f (k a)) ->
  at_most_once f (bind m k).
Proof.
  intros Hm Hk st r st' H. unfold bind in H.
  destruct (m st) as [[a|e] st1] eqn:E1.
  - destruct (Hm _ _ _ E1) as (evs1 & L1 & F1).
    destruct (Hk a _ _ _ H) as (evs2 & L2 & C2).
    exists (evs1 ++ evs2). rewrite L2, L1, app_assoc. split; [reflexivity|].
    rewrite count_app, (count_zero _ _ F1). exact C2.
  - inversion H; subst. destruct (Hm _ _ _ E1) as (evs1 & L1 & F1).
    exists evs1. split; [assumption|]. rewrite (count_zero _ _ F1). lia.
Qed.

Lemma amo_bind_r {A B} (f : Event -> bool) (m : M A) (k : A -> M B) :
  at_most_once f m -> (forall a, emits (fun ev => f ev = false) (k a)) ->
  at_most_once f (bind m k).
Proof.
  intros Hm Hk st r st' H. unfold bind in H.
  destruct (m st) as [[a|e] st1] eqn:E1.
  - destruct (Hm _ _ _ E1) as (evs1 & L1 & C1).
    destruct (Hk a _ _ _ H) as (evs2 & L2 & F2).
    exists (evs1 ++ evs2). rewrite L2, L1, app_assoc. split; [reflexivity|].
    rewrite count_app, (count_zero _ _ F2). lia.
  - inversion H; subst. exact (Hm _ _ _ E1).
Qed.

Lemma amo_try_catch {A} (f : Event -> bool) (m : M A) (h : Exn -> M A) :
  at_most_once f m -> (forall e, emits (fun ev => f ev = false) (h e)) ->
  at_most_once f (try_catch m h).
Proof.
  intros Hm Hh st r st' H. unfold try_catch in H.
  destruct (m st) as [[a|e] st1] eqn:E1.
  - inversion H; subst. exact (Hm _ _ _ E1).
  - destruct (Hm _ _ _ E1) as (evs1 & L1 & C1).
    destruct (Hh e _ _ _ H) as (evs2 & L2 & F2).
    exists (evs1 ++ evs2). rewrite L2, L1, app_assoc. split; [reflexivity|].
    rewrite count_app, (count_zero _ _ F2). lia.
Qed.

Lemma amo_try_finally {A} (f : Event -> bool) (m : M A) (fin : M unit) :
  at_most_once f m -> emits (fun ev => f ev = false) fin ->
  at_most_once f (try_finally m fin).
Proof.
  intros Hm Hf st r st' H. unfold try_finally in H.
  destruct (m st) as [r1 st1] eqn:E1.
  destruct (fin st1) as [r2 st2] eqn:E2.
  destruct (Hm _ _ _ E1) as (evs1 & L1 & C1).
  destruct (Hf _ _ _ E2) as (evs2 & L2 & F2).
  assert (st' = st2) by (destruct r2; inversion H; auto). subst st'.
  exists (evs1 ++ evs2). rewrite L2, L1, app_assoc. split; [reflexivity|].
  rewrite count_app, (count_zero _ _ F2). lia.
Qed.

Lemma amo_attempt {A} (f : Event -> bool) (m : M A) :
  at_most_once f m -> at_most_once f (attempt m).
Proof.
  intros Hm st r st' H. unfold attempt in H.
  destruct (m st) as [r1 st1] eqn:E1. inversion H; subst. eauto.
Qed.

Ltac amo_step :=
  first [ solve [apply amo_zero; emits_auto]
        | apply amo_bind_l; [solve [emits_auto] | intros ?]
        | apply amo_bind_r; [ | intros ?; solve [emits_auto]]
        | apply amo_external
        | apply amo_try_catch; [ | intros ?; solve [emits_auto]]
        | apply amo_try_finally; [ | solve [emits_auto]]
        | apply amo_attempt
        | match goal with
          | |- at_most_once _ (match ?x with _ => _ end) => destruct x
          end ].

Ltac amo_auto := repeat amo_step.

Lemma listeners_ret {A} (a : A) : keeps_listeners (ret a).
Proof. intros st r st' H; inversion H; subst; auto. Qed.

Lemma listeners_throw {A} (e : Exn) : keeps_listeners (@throw _ A e).
Proof. intros st r st' H; inversion H; subst; auto. Qed.

Lemma listeners_bind {A B} (m : M A) (k : A -> M B) :
  keeps_listeners m -> (forall a, keeps_listeners (k a)) ->
  keeps_listeners (bind m k).
Proof.
  intros Hm Hk st r st' H. unfold bind in H.
  destruct (m st) as [[a|e] st1] eqn:E1.
  - destruct (Hm _ _ _ E1) as [L1 S1]. destruct (Hk a _ _ _ H) as [L2 S2].
    split; congruence.
  - inversion H; subst. exact (Hm _ _ _ E1).
Qed.

Lemma listeners_external {A} (call : Ext -> Result A * Ext) (ev : Result A -> Event) :
  keeps_listeners (external call ev).
Proof.
  intros st r st' H. unfold external in H.
  destruct (call (ext st)) as [r0 x]. inversion H; subst; auto.
Qed.

Lemma listeners_same {A} (m : M A) :
  (forall st, listeners (snd (m st)) = listeners st
              /\ serial (snd (m st)) = serial st) ->
  keeps_listeners m.
Proof.
  intros Hq st r st' H. specialize (Hq st). rewrite H in Hq. exact Hq.
Qed.

Ltac listeners_step :=
  first [ apply listeners_bind; [|intros ?]
        | apply listeners_ret
        | apply listeners_throw
        | apply listeners_external
        | apply listeners_same; intros ?; split; reflexivity
        | match goal with
          | |- keeps_listeners (match ?x with _ => _ end) => destruct x
          end ].

Ltac listeners_auto := repeat listeners_step.

Lemma returns_bind {A B} (Q : B -> Prop) (m : M A) (k : A -> M B) :
  (forall a, returns Q (k a)) -> returns Q (bind m k).
Proof.
  intros Hk st b st' H. unfold bind in H.
  destruct (m st) as [[a|e] st1]; [exact (Hk a _ _ _ H) | discriminate H].
Qed.

Lemma count_zero_of (f g : Event -> bool) (evs : list Event) :
  (forall ev, g ev = true -> f ev = false) ->
  Forall (fun ev => g ev = true) evs -> count f evs = 0.
Proof.
  intros Hfg F. apply count_zero. eapply Forall_impl; [|exact F]. auto.
Qed.

Lemma onInput_keeps (event : option JsVal) (c0 : Component) :
  keeps (fun c => c = c0) (fun ev => is_getter ev || is_update ev = true)
        (onInput event).
Proof.
  unfold onInput, metaData, call_plugin, call_update.
  keeps_auto ltac:(first [reflexivity | assumption]).
Qed.

Lemma onInput_update_once (event : option JsVal) :
  at_most_once is_update (onInput event).
Proof. unfold onInput, metaData, call_plugin, call_update. amo_auto. Qed.

Lemma onInput_listeners (event : option JsVal) : keeps_listeners (onInput event).
Proof. unfold onInput, metaData, call_plugin, call_update. listeners_auto. Qed.

(** What a run of [onInput] leaves, in one statement. *)
Lemma onInput_run (event : option JsVal) (st : State) (r : Result bool) (st' : State) :
  onInput event st = (r, st') ->
  this st' = this st /\ listeners st' = listeners st
  /\ exists evs, log st' = log st ++ evs
       /\ Forall (fun ev => is_getter ev || is_update ev = true) evs
       /\ count is_update evs <= 1.
Proof.
  intros H.
  destruct (onInput_keeps event (this st) _ _ _ eq_refl H) as (Ht & evs & L & F).
  destruct (onInput_update_once event _ _ _ H) as (evs' & L' & C).
  rewrite L in L'. apply app_inv_head in L'. subst evs'.
  split; [assumption|]. split; [exact (proj1 (onInput_listeners event _ _ _ H))|].
  eauto.
Qed.

(** X5.  [onInput] only reads: whatever it is given and however it ends,
    it leaves the component and the listeners as they were, calls nothing
    of the plugin but its reading methods, and calls the callback at most
    once; whenever it returns, it returns true. *)
Theorem onInput_only_reads (event : option JsVal) (st : State)
    (r : Result bool) (st' : State) :
  onInput event st = (r, st') ->
  this st' = this st /\ listeners st' = listeners st
  /\ (forall b, r = Ok b -> b = true)
  /\ exists evs, log st' = log st ++ evs
       /\ Forall (fun ev => is_getter ev || is_update ev = true) evs
       /\ count is_update evs <= 1.
Proof.
  intros H.
  assert (Hr : returns (fun b => b = true) (onInput event)).
  { unfold onInput. repeat (apply returns_bind; intros ?).
    intros s0 b s1 H0. inversion H0; reflexivity. }
  destruct (onInput_run _ _ _ _ H) as (Ht & Hl & Hevs).
  split; [assumption|]. split; [assumption|].
  split; [intros b ->; exact (Hr _ _ _ H)|].
  exact Hevs.
Qed.

Lemma reads_no_setter (evs : list Event) :
  Forall (fun ev => is_getter ev || is_update ev = true) evs ->
  count is_setCountry evs = 0 /\ count is_setNumber evs = 0
  /\ count is_destroy evs = 0 /\ count is_construct evs = 0.
Proof.
  intros F.
  repeat split; apply count_zero; (eapply Forall_impl; [|exact F]);
    intros [r|el o r|p [k| | | | | |] r|f n m r|f e r]; cbn; congruence.
Qed.

(** X6.  With a plugin, [onCountryChange] first asks for the selected
    country.  When that has a truthy [iso2], the next call writes this
    very code back with [setCountry], and nothing follows if that call
    throws; when it has none, no [setCountry] is made.  Either way the
    rest of the run is that of [onInput]: no further [setCountry], no
    [setNumber], and the callback at most once. *)
Theorem onCountryChange_reapplies_country (p : Plugin) (st : State)
    (scd : JsVal) (x : Ext) (r : Result unit) (st' : State) :
  intlTelInputInstance (this st) = Some p ->
  plugin_call p getSelectedCountryData (ext st) = (Ok scd, x) ->
  onCountryChange st = (r, st') ->
  this st' = this st /\ listeners st' = listeners st
  /\ exists evs,
      log st' = log st ++ EvPlugin p getSelectedCountryData (Ok scd) :: evs
      /\ count is_setNumber evs = 0
      /\ count is_update evs <= 1
      /\ (truthy (get_prop scd "iso2") = false -> count is_setCountry evs = 0)
      /\ (truthy (get_prop scd "iso2") = true ->
          exists o evs',
            evs = EvPlugin p (setCountry (get_prop scd "iso2")) o :: evs'
            /\ count is_setCountry evs' = 0
            /\ (forall e, o = Throw e -> evs' = [] /\ r = Throw e)).
Proof.
  intros Hp Hs H. unfold onCountryChange in H.
  unfold bind at 1 in H. unfold get_this at 1 in H. rewrite Hp in H.
  unfold bind at 1 in H. unfold call_plugin at 1, external at 1 in H.
  rewrite Hs in H. cbn [this listeners serial ext log] in H.
  unfold bind at 1 in H.
  assert (Hin : forall s0 r0 s1 (pre : list Event),
             this s0 = this st -> listeners s0 = listeners st ->
             log s0 = log st ++ EvPlugin p getSelectedCountryData (Ok scd) :: pre ->
             (let (r1, s2) := onInput None s0 in
              match r1 with Ok _ => ret tt s2 | Throw e => (Throw e, s2) end)
             = (r0, s1) ->
             this s1 = this st /\ listeners s1 = listeners st
             /\ exists evs2, log s1 = log st
                   ++ EvPlugin p getSelectedCountryData (Ok scd) :: pre ++ evs2
                  /\ count is_setNumber evs2 = 0 /\ count is_update evs2 <= 1
                  /\ count is_setCountry evs2 = 0).
  { intros s0 r0 s1 pre Ht Hl Hlog H0.
    destruct (onInput None s0) as [r1 s2] eqn:Ei.
    destruct (onInput_run _ _ _ _ Ei) as (T & L & evs2 & Lg & F & C).
    destruct (reads_no_setter _ F) as (Z1 & Z2 & _).
    assert (s1 = s2) by (destruct r1; inversion H0; reflexivity). subst s1.
    split; [congruence|]. split; [congruence|].
    exists evs2. rewrite Lg, Hlog, <- app_assoc. cbn. auto. }
  destruct (truthy (get_prop scd "iso2")) eqn:Et.
  - unfold bind at 1 in H. unfold call_plugin at 1, external at 1 in H.
    cbn [this listeners serial ext log] in H.
    destruct (plugin_call p (setCountry (get_prop scd "iso2")) x) as [[v|e] x1] eqn:Ec;
      cbn [ret this listeners serial ext log] in H.
    + unfold bind at 1 in H.
      match type of H with
      | context [onInput None ?s0] =>
        destruct (Hin s0 r st' [EvPlugin p (setCountry (get_prop scd "iso2")) (Ok v)]
                    eq_refl eq_refl) as (T & L & evs2 & Lg & Z1 & C & Z2);
        [cbn; rewrite <- app_assoc; reflexivity | exact H |]
      end.
      split; [assumption|]. split; [assumption|].
      eexists. split; [exact Lg|].
      split; [rewrite count_app; cbn; lia|].
      split; [rewrite count_app; cbn; lia|].
      split; [discriminate|].
      intros _. exists (Ok v), evs2. split; [reflexivity|].
      split; [assumption|]. intros e He; discriminate He.
    + inversion H; subst; clear H. cbn.
      split; [reflexivity|]. split; [reflexivity|].
      eexists. split; [rewrite <- app_assoc; reflexivity|].
      split; [reflexivity|]. split; [cbn; lia|].
      split; [discriminate|].
      intros _. exists (Throw e), []. split; [reflexivity|].
      split; [reflexivity|]. intros e' He. inversion He; subst. auto.
  - cbn [ret] in H. unfold bind at 1 in H.
    match type of H with
    | context [onInput None ?s0] =>
      destruct (Hin s0 r st' [] eq_refl eq_refl) as (T & L & evs2 & Lg & Z1 & C & Z2);
      [reflexivity | exact H |]
    end.
    split; [assumption|]. split; [assumption|].
    exists evs2. split; [exact Lg|].
    split; [assumption|]. split; [assumption|].
    split; [auto | discriminate].
Qed.

(** ** Teardown and what follows it *)

(** X7.  An unmount destroys the plugin with one call and leaves the
    component pointing at it: [intlTelInputInstance] and the arguments are
    as before.  When [destroy] throws, the error leaves [onDestroy] before
    the listener is looked at: the unmount throws that very error, the
    listeners are untouched and the component is not marked destroyed;
    when [destroy] returns, the unmount returns.  A configuration update
    that follows the unmount still writes its number to the destroyed
    plugin. *)
Theorem unmount_keeps_plugin_reference (element : Element) (st : State)
    (r : Result unit) (st' : State) :
  unmount element st = (r, st') ->
  intlTelInputInstance (this st') = intlTelInputInstance (this st)
  /\ args (this st') = args (this st)
  /\ isDestroying (this st') = true
  /\ (r = Ok tt -> isDestroyed (this st') = true)
  /\ (forall e, r = Throw e -> listeners st' = listeners st)
  /\ (exists evs, log st' = log st ++ evs
        /\ match intlTelInputInstance (this st) with
           | Some p => exists o, evs = [EvPlugin p destroy o]
           | None => evs = []
           end)
  /\ (forall p r2 st2,
        intlTelInputInstance (this st) = Some p ->
        truthy (Args.country (args (this st))) = false ->
        truthy (Args.number (args (this st))) = true ->
        onDidUpdate st' = (r2, st2) ->
        exists o, log st2
                  = log st' ++ [EvPlugin p (setNumber (Args.number (args (this st)))) o])
  /\ match intlTelInputInstance (this st) with
     | Some p =>
       log st' = log st ++ [EvPlugin p destroy (fst (plugin_call p destroy (ext st)))]
       /\ ext st' = snd (plugin_call p destroy (ext st))
       /\ match fst (plugin_call p destroy (ext st)) with
          | Ok _ =>
            r = Ok tt
            /\ listeners st'
               = dom_remove (element, "countrychange", OnCountryChangeMethod)
                            (listeners st)
            /\ isDestroyed (this st') = true
          | Throw e =>
            r = Throw e
            /\ listeners st' = listeners st
            /\ isDestroyed (this st') = isDestroyed (this st)
          end
     | None =>
       r = Ok tt
       /\ st' = mkState (set_isDestroyed true (set_isDestroying true (this st)))
                        (dom_remove (element, "countrychange", OnCountryChangeMethod)
                                    (listeners st))
                        (serial st) (ext st) (log st)
     end.
Proof.
  intros H.
  assert (Hmain :
    intlTelInputInstance (this st') = intlTelInputInstance (this st)
    /\ args (this st') = args (this st)
    /\ isDestroying (this st') = true
    /\ (r = Ok tt -> isDestroyed (this st') = true)
    /\ (forall e, r = Throw e -> listeners st' = listeners st)
    /\ (exists evs, log st' = log st ++ evs
          /\ match intlTelInputInstance (this st) with
             | Some p => exists o, evs = [EvPlugin p destroy o]
             | None => evs = []
             end)).
  { unfold unmount, mark_destroying, mark_destroyed, onDestroy in H.
    unfold_monad.
    cbn [this listeners serial ext log intlTelInputInstance set_isDestroying] in H.
    destruct (intlTelInputInstance (this st)) as [p|] eqn:Ep;
      cbn [this listeners serial ext log] in H.
    - destruct (plugin_call p destroy (ext st)) as [[v|e] x]; cbn in H;
        inversion H; subst; clear H; cbn;
        (repeat split; try assumption; try reflexivity; try discriminate);
        eexists; (split; [reflexivity | eexists; reflexivity]).
    - inversion H; subst; clear H; cbn.
      repeat split; try assumption; try reflexivity; try discriminate.
      exists []. rewrite app_nil_r. auto. }
  destruct Hmain as (Hi & Ha & Hd & Hr & He & Hl).
  repeat (split; [assumption|]).
  split; [|
    unfold unmount, mark_destroying, mark_destroyed, onDestroy in H;
    unfold_monad;
    cbn [this listeners serial ext log intlTelInputInstance set_isDestroying] in H;
    destruct (intlTelInputInstance (this st)) as [p|];
    cbn [this listeners serial ext log] in H;
    [ destruct (plugin_call p destroy (ext st)) as [[v|e] x]; cbn in H;
      inversion H; subst; clear H; cbn; repeat split; reflexivity
    | inversion H; subst; clear H; split; reflexivity ] ].
  intros p r2 st2 Hp Hc Hn H2.
  unfold onDidUpdate, formatNumber, country, number in H2. unfold_monad.
  rewrite Hi, Hp, Ha in H2. unfold js_or in H2. rewrite Hc, Hn in H2.
  cbn in H2. rewrite Hn in H2. cbn in H2.
  destruct (plugin_call p (setNumber (Args.number (args (this st)))) (ext st'))
    as [[v|e] x]; cbn in H2; inversion H2; subst; cbn; eauto.
Qed.

(** ** Mounting *)

(** X8.  However [load] settles and whatever is thrown, one run of
    [loadAndSetup] constructs at most one plugin and calls the [update]
    callback at most once; the part before the [await] does neither. *)
Theorem loadAndSetup_constructs_once (element : Element) (st : State) :
  (forall s r st', loadAndSetup_resume element s st = (r, st') ->
     exists evs, log st' = log st ++ evs
       /\ count is_construct evs <= 1 /\ count is_update evs <= 1)
  /\ (forall r st', onDidInsert element st = (r, st') ->
       exists evs, log st' = log st ++ evs
         /\ count is_construct evs = 0 /\ count is_update evs = 0).
Proof.
  split.
  - intros s r st' H.
    assert (Hc : at_most_once is_construct (loadAndSetup_resume element s)).
    { unfold loadAndSetup_resume, loadAndSetup_try, settle, loadAndSetup_catch,
        loadAndSetup_finally, loadAndSetup_continue, setupLibrary, formatNumber,
        metaData, call_plugin, call_update.
      destruct s; amo_auto. }
    assert (Hu : at_most_once is_update (loadAndSetup_resume element s)).
    { unfold loadAndSetup_resume, loadAndSetup_try, settle, loadAndSetup_catch,
        loadAndSetup_finally, loadAndSetup_continue, setupLibrary, formatNumber,
        metaData, call_plugin, call_update.
      destruct s; amo_auto. }
    destruct (Hc _ _ _ H) as (evs & L & C).
    destruct (Hu _ _ _ H) as (evs' & L' & C').
    rewrite L in L'. apply app_inv_head in L'. subst evs'. eauto.
  - intros r st' H.
    assert (He : emits (fun ev => is_construct ev || is_update ev = false)
                       (onDidInsert element)).
    { unfold onDidInsert, loadAndSetup_start, loadAndSetup_try, settle,
        loadAndSetup_catch, loadAndSetup_finally.
      emits_more. }
    destruct (He _ _ _ H) as (evs & L & F).
    exists evs. split; [assumption|].
    split; apply count_zero; (eapply Forall_impl; [|exact F]);
      intros ev Hev; apply orb_false_iff in Hev; tauto.
Qed.

Lemma keeps_try_finally {A} I P (m : M A) (fin : M unit) :
  keeps I P m -> keeps I P fin -> keeps I P (try_finally m fin).
Proof.
  intros Hm Hf st r st' Hi H. unfold try_finally in H.
  destruct (m st) as [r1 st1] eqn:E1.
  destruct (fin st1) as [r2 st2] eqn:E2.
  destruct (Hm _ _ _ Hi E1) as (Hi1 & evs1 & L1 & F1).
  destruct (Hf _ _ _ Hi1 E2) as (Hi2 & evs2 & L2 & F2).
  assert (st' = st2) by (destruct r2; inversion H; auto). subst st'.
  split; [assumption|].
  exists (evs1 ++ evs2). rewrite L2, L1, app_assoc. split; auto.
  apply Forall_app; auto.
Qed.

Lemma keeps_attempt {A} I P (m : M A) : keeps I P m -> keeps I P (attempt m).
Proof.
  intros Hm st r st' Hi H. unfold attempt in H.
  destruct (m st) as [r1 st1] eqn:E1. inversion H; subst. eauto.
Qed.

Ltac keeps_more side :=
  repeat first [ keeps_step side
               | apply keeps_attempt
               | apply keeps_try_finally
               | apply keeps_try_catch; [|intros ?] ].

(** What a successful construction says of the arguments. *)
Lemma constructor_checked (a : Args.t) (c : Component) :
  constructor a = Ok c ->
  c = set_update (Args.update a) (initial a)
  /\ customPlaceholder_ok a /\ autoPlaceholder_ok a.
Proof.
  intros H. pose proof H as H0. unfold constructor in H. cbv zeta in H.
  unfold customPlaceholder, autoPlaceholder in H.
  cbn [args set_update initial] in H.
  assert (Hc : customPlaceholder_ok a).
  { intros Ht. rewrite (js_or_truthy _ _ Ht), Ht in H.
    destruct (typeof (Args.customPlaceholder a) =? "string") eqn:E.
    - apply typeof_string in E. exact E.
    - discriminate H. }
  assert (Ha : autoPlaceholder_ok a).
  { intros Ht. rewrite (js_or_truthy _ _ Ht) in H.
    destruct (includes _ (Args.autoPlaceholder a)) eqn:Ei.
    - apply includes_autoPlaceholder in Ei.
      destruct Ei as [E | [E | [E | E]]]; auto.
      rewrite E in Ht; discriminate Ht.
    - destruct (if truthy _ then _ else _); discriminate H. }
  rewrite (constructor_accepts a Hc Ha) in H0. inversion H0. auto.
Qed.

Lemma options_of_checked_args (c : Component) (ad ic oc pc sd : JsVal) :
  customPlaceholder_ok (args c) -> autoPlaceholder_ok (args c) ->
  options_checked
    (Options.mk false true fr ad (autoPlaceholder c) ic oc pc sd
       (if truthy (customPlaceholder c) then Some (customPlaceholder c) else None)).
Proof.
  intros Hc Ha. unfold options_checked; cbn.
  split; [reflexivity|]. split; [reflexivity|]. split; [reflexivity|]. split.
  - unfold autoPlaceholder.
    destruct (truthy (Args.autoPlaceholder (args c))) eqn:Et.
    + rewrite (js_or_truthy _ _ Et). exact (Ha Et).
    + rewrite (js_or_falsy _ _ Et). auto.
  - unfold customPlaceholder.
    destruct (truthy (Args.customPlaceholder (args c))) eqn:Et.
    + rewrite (js_or_truthy _ _ Et), Et. right.
      destruct (Hc Et) as [s Hs]. exists s. rewrite Hs. split; [reflexivity|].
      intros ->. rewrite Hs in Et. discriminate Et.
    + rewrite (js_or_falsy _ _ Et). left. reflexivity.
Qed.

(** X9.  As long as the component has the arguments its constructor
    accepted, every construction of a plugin in [loadAndSetup] is given
    checked options: dial-code insertion off, national mode on, the French
    locale, an [autoPlaceholder] that is one of 'polite', 'aggressive' and
    'off', and a [customPlaceholder] that is absent or returns a non-empty
    string. *)
Theorem setupLibrary_options_checked (a : Args.t) (c : Component)
    (element : Element) (s : Settled) (st : State) (r : Result Settled)
    (st' : State) :
  constructor a = Ok c ->
  args (this st) = a ->
  loadAndSetup_resume element s st = (r, st') ->
  args (this st') = a
  /\ exists evs, log st' = log st ++ evs /\ Forall construct_checked evs.
Proof.
  intros Hc Ha H.
  destruct (constructor_checked _ _ Hc) as (_ & Hcp & Hap).
  assert (Hk : keeps (fun c => args c = a) construct_checked
                     (loadAndSetup_resume element s)).
  { unfold loadAndSetup_resume, loadAndSetup_try, settle, loadAndSetup_catch,
      loadAndSetup_finally, loadAndSetup_continue, setupLibrary, formatNumber,
      metaData, call_plugin, call_update, service_factory.
    destruct s;
      keeps_more ltac:(first [ exact I
                             | assumption
                             | unfold construct_checked;
                               apply options_of_checked_args;
                               match goal with
                               | E : args _ = a |- _ => rewrite E; assumption
                               end ]). }
  exact (Hk _ _ _ Ha H).
Qed.

Lemma dom_add_fresh (st : State) (element : Element) (ty : string) :
  serials_fresh st ->
  dom_add (element, ty, OnCountryChangeBound (serial st)) (listeners st)
  = listeners st ++ [(element, ty, OnCountryChangeBound (serial st))].
Proof.
  intros Hf. unfold dom_add.
  destruct (existsb _ (listeners st)) eqn:E; [|reflexivity].
  apply existsb_exists in E. destruct E as ([[el t] f] & Hin & Heq).
  cbn in Heq. apply andb_true_iff in Heq. destruct Heq as [_ Heq].
  destruct f as [|k]; [discriminate Heq|]. cbn in Heq.
  apply Nat.eqb_eq in Heq. subst k.
  apply Hf in Hin. lia.
Qed.

Lemma serials_fresh_add (st : State) (element : Element) (ty : string)
      (c : Component) (x : Ext) (l : list Event) :
  serials_fresh st ->
  serials_fresh
    (mkState c (listeners st ++ [(element, ty, OnCountryChangeBound (serial st))])
             (S (serial st)) x l).
Proof.
  intros Hf el t k Hin. cbn in *. apply in_app_or in Hin.
  destruct Hin as [Hin | [Hin | []]].
  - apply Hf in Hin. lia.
  - inversion Hin; subst. lia.
Qed.

(** X10.  The mount that works.  On a live component, with the library
    loaded and a world in which nothing throws, [loadAndSetup] fulfils its
    promise, constructs one plugin and keeps it in
    [intlTelInputInstance], clears the loading flag and adds one new
    country-change listener to the element.  The construction is the
    first thing logged; everything after it is a call of that plugin or
    the [update] callback, which is called with the component's number,
    exactly once when there is a callback. *)
Theorem loadAndSetup_mounts (J : Ext -> Prop) (element : Element) (st : State) :
  calm J -> J (ext st) ->
  live (this st) ->
  service_intlTelInput (ext st) = true ->
  serials_fresh st ->
  exists p o evs st',
    loadAndSetup_resume element Fulfilled st = (Ok Fulfilled, st')
    /\ intlTelInputInstance (this st') = Some p
    /\ isLoadingIntlTelInput (this st') = false
    /\ listeners st'
       = listeners st ++ [(element, "countrychange", OnCountryChangeBound (serial st))]
    /\ serials_fresh st'
    /\ J (ext st')
    /\ log st' = log st ++ EvConstruct element o (Ok p) :: evs
    /\ Forall (mount_event p (number (this st))) evs
    /\ count is_update evs = match update (this st) with Some _ => 1 | None => 0 end.
Proof.
  intros (Hplug & Hcons & Hupd) HJ [Hd1 Hd2] Hlib Hfresh.
  unfold loadAndSetup_resume, loadAndSetup_try, settle, loadAndSetup_catch,
    loadAndSetup_finally, loadAndSetup_continue, setupLibrary, formatNumber,
    metaData.
  unfold_monad.
  cbn [this listeners serial ext log]. rewrite Hd1, Hd2.
  cbn [orb negb andb this listeners serial ext log]. rewrite Hlib.
  cbn [orb negb andb this listeners serial ext log].
  match goal with
  | |- context [service_construct element ?o (ext st)] =>
    destruct (Hcons element o (ext st) HJ) as (p & x0 & Ec & HJ0); rewrite Ec
  end.
  cbn [this listeners serial ext log intlTelInputInstance set_intlTelInputInstance
       isDestroying isDestroyed update args].
  change (number (set_intlTelInputInstance (Some p) (this st))) with (number (this st)).
  change (country (set_intlTelInputInstance (Some p) (this st))) with (country (this st)).
  destruct (truthy (number (this st))) eqn:En;
    destruct (truthy (initialCountry (this st))) eqn:Ei;
    destruct (truthy (country (this st))) eqn:Eco;
    destruct (update (this st)) as [f|] eqn:Eu;
    repeat (progress (
      try change (number (set_intlTelInputInstance (Some p) (this st)))
        with (number (this st));
      try change (country (set_intlTelInputInstance (Some p) (this st)))
        with (country (this st));
      rewrite ?Eu, ?En, ?Ei, ?Eco, ?Hd1, ?Hd2;
      cbn [this listeners serial ext log intlTelInputInstance
           set_intlTelInputInstance isDestroying isDestroyed update args
           orb negb andb];
      try match goal with
          | HJx : J ?x |- context [plugin_call ?q ?m ?x] =>
            let v := fresh "v" in
            let x' := fresh "x" in
            let E := fresh "E" in
            let HJ' := fresh "HJ" in
            destruct (Hplug q m x HJx) as (v & x' & E & HJ'); rewrite E; clear E
          | HJx : J ?x |- context [host_update ?g ?n ?m ?x] =>
            let u := fresh "u" in
            let x' := fresh "x" in
            let E := fresh "E" in
            let HJ' := fresh "HJ" in
            destruct (Hupd g n m x HJx) as (u & x' & E & HJ'); rewrite E; clear E
          end));
    rewrite (dom_add_fresh st element "countrychange" Hfresh);
    (do 4 eexists; split; [reflexivity|]);
    cbn [this listeners serial ext log intlTelInputInstance
         set_intlTelInputInstance set_isLoadingIntlTelInput isLoadingIntlTelInput];
    (split; [reflexivity|]); (split; [reflexivity|]); (split; [reflexivity|]);
    (split; [apply serials_fresh_add; assumption|]);
    (split; [assumption|]);
    repeat rewrite <- app_assoc; cbn [app];
    (split; [reflexivity|]);
    (split; [repeat constructor | reflexivity]).
Qed.

(** ** Configuration updates, continued *)

(** X11.  A configuration update touches nothing but the plugin the
    component already has: without a plugin it does nothing at all, and
    with one it constructs nothing, destroys nothing and calls no
    callback.  It applies the country before the number, and a
    [setCountry] that throws ends the update before [setNumber]. *)
Theorem onDidUpdate_country_before_number (st : State) (r : Result unit)
    (st' : State) :
  onDidUpdate st = (r, st') ->
  this st' = this st /\ listeners st' = listeners st
  /\ (intlTelInputInstance (this st) = None -> r = Ok tt /\ st' = st)
  /\ (forall p, intlTelInputInstance (this st) = Some p ->
       exists evs, log st' = log st ++ evs
         /\ Forall (fun ev => exists v o,
                       ev = EvPlugin p (setCountry v) o
                       \/ ev = EvPlugin p (setNumber v) o) evs
         /\ (truthy (country (this st)) = true ->
             exists o rest,
               evs = EvPlugin p (setCountry (country (this st))) o :: rest
               /\ count is_setCountry rest = 0
               /\ (forall e, o = Throw e -> rest = [] /\ r = Throw e)
               /\ (forall v, o = Ok v -> truthy (number (this st)) = true ->
                     exists o', rest = [EvPlugin p (setNumber (number (this st))) o']))).
Proof.
  intros H. unfold onDidUpdate, formatNumber in H. unfold_monad.
  destruct (intlTelInputInstance (this st)) as [p|] eqn:Ep.
  - assert (Hgoal :
      this st' = this st /\ listeners st' = listeners st
      /\ exists evs, log st' = log st ++ evs
         /\ Forall (fun ev => exists v o,
                       ev = EvPlugin p (setCountry v) o
                       \/ ev = EvPlugin p (setNumber v) o) evs
         /\ (truthy (country (this st)) = true ->
             exists o rest,
               evs = EvPlugin p (setCountry (country (this st))) o :: rest
               /\ count is_setCountry rest = 0
               /\ (forall e, o = Throw e -> rest = [] /\ r = Throw e)
               /\ (forall v, o = Ok v -> truthy (number (this st)) = true ->
                     exists o', rest = [EvPlugin p (setNumber (number (this st))) o']))).
    { destruct (truthy (country (this st))) eqn:Ec;
        destruct (truthy (number (this st))) eqn:En;
        repeat match type of H with
        | context [plugin_call ?q ?m ?x] =>
          destruct (plugin_call q m x) as [[?|?] ?];
          cbn [this listeners serial ext log] in H
        end;
        inversion H; subst; clear H;
        cbn [this listeners serial ext log];
        repeat rewrite <- app_assoc; cbn [app];
        (split; [reflexivity|]); (split; [reflexivity|]);
        first [ eexists; split; [reflexivity|]
              | exists []; split; [symmetry; apply app_nil_r|] ];
        (split; [repeat (apply Forall_cons;
                         [do 2 eexists; first [left; reflexivity | right; reflexivity]|]);
                 apply Forall_nil|]);
        intros Ht; try discriminate Ht;
        do 2 eexists; (split; [reflexivity|]); (split; [reflexivity|]);
        (split;
         [ intros e' He; inversion He; subst; auto
         | intros v' He Hn; try discriminate He; try discriminate Hn; eauto ]). }
    destruct Hgoal as (Ht & Hl & Hevs).
    split; [assumption|]. split; [assumption|]. split; [discriminate|].
    intros q Hq. inversion Hq; subst q. exact Hevs.
  - inversion H; subst. split; [reflexivity|]. split; [reflexivity|].
    split; [auto | discriminate].
Qed.

(** ** Construction, metadata and input, continued *)

(** X12.  The constructor succeeds exactly on the arguments whose custom
    placeholder is falsy or a string and whose auto placeholder is falsy
    or one of the three words.  What it builds has the given arguments,
    their callback, no plugin and no loading in progress; when it fails,
    the error is one of its two assertions, the one of the custom
    placeholder taking precedence. *)
Theorem constructor_succeeds_iff (a : Args.t) :
  ((exists c, constructor a = Ok c)
   <-> customPlaceholder_ok a /\ autoPlaceholder_ok a)
  /\ (forall c, constructor a = Ok c ->
        args c = a /\ update c = Args.update a
        /\ intlTelInputInstance c = None /\ isLoadingIntlTelInput c = false
        /\ live c)
  /\ (forall e, constructor a = Throw e ->
        (e = AssertionFailed customPlaceholder_message /\ ~ customPlaceholder_ok a)
        \/ (e = AssertionFailed autoPlaceholder_message
            /\ customPlaceholder_ok a /\ ~ autoPlaceholder_ok a)).
Proof.
  split; [|split].
  - split.
    + intros [c Hc]. destruct (constructor_checked _ _ Hc) as (_ & H1 & H2). auto.
    + intros [H1 H2]. eexists. apply constructor_accepts; assumption.
  - intros c Hc. destruct (constructor_checked _ _ Hc) as (-> & _ & _).
    unfold live. cbn. repeat (split; [reflexivity|]). reflexivity.
  - intros e He.
    destruct (truthy (Args.customPlaceholder a)) eqn:Et.
    + destruct (typeof (Args.customPlaceholder a) =? "string") eqn:Es.
      * right.
        assert (Hcp : customPlaceholder_ok a).
        { intros _. apply typeof_string. exact Es. }
        assert (Hna : ~ autoPlaceholder_ok a).
        { intros Ha. rewrite (constructor_accepts a Hcp Ha) in He. discriminate He. }
        split; [|auto].
        unfold constructor, customPlaceholder in He. cbv zeta in He.
        cbn [args set_update initial] in He.
        rewrite (js_or_truthy _ _ Et), Et, Es in He. cbn [assert] in He.
        destruct (includes _ _); cbn [assert] in He; [discriminate He|].
        inversion He; reflexivity.
      * left. split.
        -- unfold constructor, customPlaceholder in He. cbv zeta in He.
           cbn [args set_update initial] in He.
           rewrite (js_or_truthy _ _ Et), Et, Es in He. cbn [assert] in He.
           inversion He; reflexivity.
        -- intros Hcp. apply typeof_string in Hcp; [|exact Et].
           rewrite Hcp in Es. discriminate Es.
    + right.
      assert (Hcp : customPlaceholder_ok a) by (intros H; congruence).
      assert (Hna : ~ autoPlaceholder_ok a).
      { intros Ha. rewrite (constructor_accepts a Hcp Ha) in He. discriminate He. }
      split; [|auto].
      unfold constructor, customPlaceholder in He. cbv zeta in He.
      cbn [args set_update initial] in He.
      rewrite (js_or_falsy _ _ Et) in He. cbn [truthy] in He.
      destruct (includes _ _); cbn [assert] in He; [discriminate He|].
      inversion He; reflexivity.
Qed.

(** The log of a run of [metaData]. *)
Lemma metaData_reads_log (p : Plugin) (st : State) (r : Result JsVal)
    (st' : State) :
  metaData (Some p) st = (r, st') ->
  this st' = this st /\ listeners st' = listeners st
  /\ exists evs, log st' = log st ++ evs
      /\ map method_of evs = map Some (firstn (length evs) metaData_methods)
      /\ Forall (fun ev => exists m o, ev = EvPlugin p m o) evs
      /\ match r with
         | Ok _ => length evs = 7 /\ forallb returned evs = true
         | Throw e =>
           forallb returned (removelast evs) = true
           /\ exists m, last evs (EvLoad (Ok tt)) = EvPlugin p m (Throw e)
         end.
Proof.
  intros H. unfold metaData in H. unfold_monad.
  cbn [this listeners serial ext log] in H.
  repeat match type of H with
  | context [plugin_call ?q ?m ?x] =>
    destruct (plugin_call q m x) as [[?|?] ?];
    cbn [this listeners serial ext log] in H
  end;
    inversion H; subst; clear H;
    cbn [this listeners serial ext log];
    repeat rewrite <- app_assoc; cbn [app];
    (split; [reflexivity|]); (split; [reflexivity|]);
    (eexists; split; [reflexivity|]);
    (split; [reflexivity|]);
    (split; [repeat (apply Forall_cons; [do 2 eexists; reflexivity|]);
             apply Forall_nil|]);
    (split; [reflexivity|]); first [reflexivity | eexists; reflexivity].
Qed.

(** The error [metaData] throws is the error a read of the plugin threw. *)
Lemma metaData_throws_call (p : Plugin) (st : State) (e : Exn) (st' : State) :
  metaData (Some p) st = (Throw e, st') ->
  exists m x0, In m metaData_methods /\ plugin_call p m x0 = (Throw e, ext st').
Proof.
  intros H. unfold metaData in H. unfold_monad.
  cbn [this listeners serial ext log] in H.
  repeat match type of H with
  | context [plugin_call ?q ?m ?x] =>
    let E := fresh "E" in
    destruct (plugin_call q m x) as [[?|?] ?] eqn:E;
    cbn [this listeners serial ext log] in H
  end;
    inversion H; subst; clear H; cbn [ext];
    match goal with
    | E : plugin_call p ?m ?x0 = (Throw _, _) |- _ =>
      exists m, x0; split; [simpl; tauto | exact E]
    end.
Qed.

(** X13.  [metaData] reads the plugin in a fixed order (extension,
    selected country, validity, then the four formats), changes neither
    the component nor the listeners, and stops at the first call that
    throws: it returns after exactly seven calls that all returned, and
    it throws exactly the error of its last call, all calls before that
    having returned.  What it returns is made of what the plugin answered
    to these reads, and what it throws is what a read of the plugin
    threw. *)
Theorem metaData_reads_in_order (p : Plugin) (st : State) (r : Result JsVal)
    (st' : State) :
  metaData (Some p) st = (r, st') ->
  this st' = this st /\ listeners st' = listeners st
  /\ (exists evs, log st' = log st ++ evs
      /\ map method_of evs = map Some (firstn (length evs) metaData_methods)
      /\ Forall (fun ev => exists m o, ev = EvPlugin p m o) evs
      /\ match r with
         | Ok _ => length evs = 7 /\ forallb returned evs = true
         | Throw e =>
           forallb returned (removelast evs) = true
           /\ exists m, last evs (EvLoad (Ok tt)) = EvPlugin p m (Throw e)
         end)
  /\ match r with
     | Ok m =>
       exists ex scd v a b c d,
         metaData_chain p (ext st) ex scd v a b c d (ext st')
         /\ m = MetaData ex scd v (if truthy v then NumberFormat a b c d else VNull)
         /\ log st' = log st ++ metaData_calls p ex scd v a b c d
     | Throw e =>
       exists m x0, In m metaData_methods /\ plugin_call p m x0 = (Throw e, ext st')
     end.
Proof.
  intros H.
  destruct (metaData_reads_log p st r st' H) as (Ht & Hl & Hevs).
  split; [assumption|]. split; [assumption|]. split; [exact Hevs|].
  destruct r as [m|e].
  - exact (metaData_returns_chain _ _ _ _ H).
  - exact (metaData_throws_call _ _ _ _ H).
Qed.

Lemma onInput_tail_keeps (o : option Plugin) (n : JsVal) :
  keeps (fun _ => True) (update_with n)
        (bind (metaData o)
              (fun meta => bind (call_update n meta) (fun _ => ret true))).
Proof.
  unfold metaData, call_plugin, call_update.
  keeps_auto ltac:(first [exact I | reflexivity]).
Qed.

(** What the log of [onInput] holds after the call of [getNumber()]. *)
Lemma onInput_number_log (p : Plugin) (event : option JsVal) (st : State)
    (n : JsVal) (x : Ext) (r : Result bool) (st' : State) :
  intlTelInputInstance (this st) = Some p ->
  plugin_call p (getNumber None) (ext st) = (Ok n, x) ->
  onInput event st = (r, st') ->
  exists evs,
    log st' = log st ++ EvPlugin p (getNumber None) (Ok n) :: evs
    /\ (forall value, event = Some value ->
          Forall (update_with (nullish_or n value)) evs)
    /\ (event = None ->
        (n = VUndefined \/ n = VNull -> evs = [] /\ r = Throw onInput_TypeError)
        /\ (n <> VUndefined -> n <> VNull -> Forall (update_with n) evs)).
Proof.
  intros Hp Hn H. unfold onInput in H.
  unfold bind at 1 in H. unfold get_this at 1 in H. rewrite Hp in H.
  unfold bind at 1 in H. unfold call_plugin at 1, external at 1 in H.
  rewrite Hn in H. cbn [this listeners serial ext log] in H.
  unfold bind at 1 in H.
  assert (Htail : forall n0 s0 r0 s1,
             bind (metaData (Some p))
                  (fun meta => bind (call_update n0 meta) (fun _ => ret true)) s0
             = (r0, s1) ->
             exists evs, log s1 = log s0 ++ evs /\ Forall (update_with n0) evs).
  { intros n0 s0 r0 s1 H0.
    exact (proj2 (onInput_tail_keeps (Some p) n0 _ _ _ I H0)). }
  destruct event as [value|].
  - assert (Hv : exists evs, log st' = (log st ++ [EvPlugin p (getNumber None) (Ok n)]) ++ evs
                    /\ Forall (update_with (nullish_or n value)) evs).
    { destruct n; cbn [ret nullish_or] in H |- *;
        exact (Htail _ _ _ _ H). }
    destruct Hv as (evs & L & F). exists evs.
    rewrite L, <- app_assoc. split; [reflexivity|].
    split; [intros v Hv; inversion Hv; subst; exact F | discriminate].
  - destruct n; cbn [ret throw] in H;
      try (inversion H; subst; clear H; cbn [log];
           exists [];
           split; [reflexivity|]; split; [discriminate|];
           intros _; split; [auto | intros H1 H2; congruence]);
      (destruct (Htail _ _ _ _ H) as (evs & L & F); cbn [log] in L; exists evs;
       rewrite L, <- app_assoc; split; [reflexivity|]; split; [discriminate|];
       intros _; split; [intros [E | E]; discriminate E | intros _ _; exact F]).
Qed.

(** [onInput] from the metadata on, when the plugin answers and there is
    a callback. *)
Lemma onInput_tail_run (p : Plugin) (n' : JsVal) (s0 : State) (f : HostFn)
    (ex scd v a b c d : JsVal) (x' : Ext) :
  update (this s0) = Some f ->
  metaData_chain p (ext s0) ex scd v a b c d x' ->
  bind (metaData (Some p))
       (fun meta => bind (call_update n' meta) (fun _ => ret true)) s0
  = (match fst (host_update f n'
                  (MetaData ex scd v (if truthy v then NumberFormat a b c d else VNull))
                  x') with
     | Ok _ => Ok true
     | Throw e => Throw e
     end,
     mkState (this s0) (listeners s0) (serial s0)
       (snd (host_update f n'
               (MetaData ex scd v (if truthy v then NumberFormat a b c d else VNull))
               x'))
       ((log s0 ++ metaData_calls p ex scd v a b c d)
        ++ [EvUpdate f n'
              (MetaData ex scd v (if truthy v then NumberFormat a b c d else VNull))
              (fst (host_update f n'
                      (MetaData ex scd v
                         (if truthy v then NumberFormat a b c d else VNull))
                      x'))])).
Proof.
  intros Hu Hc. unfold bind at 1. rewrite (metaData_produces _ _ _ _ _ _ _ _ _ _ Hc).
  unfold call_update. unfold_monad. cbn [this listeners serial ext log].
  rewrite Hu. cbn [this listeners serial ext log].
  destruct (host_update f n' _ x') as [[u|e] x'']; reflexivity.
Qed.

(** X14.  The number [onInput] hands to the callback is what the plugin's
    [getNumber()] returned, unless that is null or undefined: then it is
    the raw value of the input, and without an event [onInput] throws a
    [TypeError] after that one call, before the callback.  When the
    plugin answers the reads of [metaData] and there is a callback,
    [onInput] calls it exactly once, after those reads, with this number
    and the metadata made of the answers, and returns true if the
    callback returns and throws its error if it throws. *)
Theorem onInput_number_fallback (p : Plugin) (event : option JsVal) (st : State)
    (n : JsVal) (x : Ext) (r : Result bool) (st' : State) :
  intlTelInputInstance (this st) = Some p ->
  plugin_call p (getNumber None) (ext st) = (Ok n, x) ->
  onInput event st = (r, st') ->
  exists evs,
    log st' = log st ++ EvPlugin p (getNumber None) (Ok n) :: evs
    /\ (forall value, event = Some value ->
          Forall (update_with (nullish_or n value)) evs)
    /\ (event = None ->
        (n = VUndefined \/ n = VNull -> evs = [] /\ r = Throw onInput_TypeError)
        /\ (n <> VUndefined -> n <> VNull -> Forall (update_with n) evs))
    /\ (forall n' f ex scd v a b c d x',
          input_number n event = Some n' ->
          update (this st) = Some f ->
          metaData_chain p x ex scd v a b c d x' ->
          evs = metaData_calls p ex scd v a b c d
                ++ [EvUpdate f n'
                      (MetaData ex scd v
                         (if truthy v then NumberFormat a b c d else VNull))
                      (fst (host_update f n'
                              (MetaData ex scd v
                                 (if truthy v then NumberFormat a b c d else VNull))
                              x'))]
          /\ ext st'
             = snd (host_update f n'
                      (MetaData ex scd v
                         (if truthy v then NumberFormat a b c d else VNull))
                      x')
          /\ r = match fst (host_update f n'
                              (MetaData ex scd v
                                 (if truthy v then NumberFormat a b c d else VNull))
                              x') with
                 | Ok _ => Ok true
                 | Throw e => Throw e
                 end).
Proof.
  intros Hp Hn H.
  destruct (onInput_number_log p event st n x r st' Hp Hn H) as (evs & L & F1 & F2).
  exists evs. repeat (split; [assumption|]).
  intros n' f ex scd v a b c d x' Hin Hu Hc.
  unfold onInput in H.
  unfold bind at 1 in H. unfold get_this at 1 in H. rewrite Hp in H.
  unfold bind at 1 in H. unfold call_plugin at 1, external at 1 in H.
  rewrite Hn in H. cbn [this listeners serial ext log] in H.
  unfold bind at 1 in H.
  assert (Ht : bind (metaData (Some p))
                    (fun meta => bind (call_update n' meta) (fun _ => ret true))
                    (mkState (this st) (listeners st) (serial st) x
                             (log st ++ [EvPlugin p (getNumber None) (Ok n)]))
               = (r, st')).
  { destruct n; destruct event as [value|]; cbn [input_number] in Hin;
      inversion Hin; subst; exact H. }
  rewrite (onInput_tail_run p n'
             (mkState (this st) (listeners st) (serial st) x
                      (log st ++ [EvPlugin p (getNumber None) (Ok n)]))
             f ex scd v a b c d x' Hu Hc) in Ht.
  inversion Ht; subst r st'; clear Ht.
  cbn [log ext] in L |- *.
  rewrite <- !app_assoc in L. apply app_inv_head in L.
  cbn [app] in L. inversion L; subst evs. auto.
Qed.

End Properties.

(** * The properties on the sample world *)

#[local] Existing Instance Sample.world.

Ltac run := vm_compute; reflexivity.

Lemma sample_plugin_never_throws : @plugin_never_throws Sample.world tt.
Proof.
  intros m x. destruct m as [[k|]| | | | | |]; simpl; eauto.
Defined.

(** ** Construction *)

(** C4, against the claim as stated: null and the empty string are not
    among 'aggressive', 'off', 'polite' and undefined, and the constructor
    accepts both. *)
Lemma constructor_accepts_falsy_autoPlaceholder :
  let a v := Args.mk VNull None VUndefined VUndefined VUndefined VUndefined
               VUndefined v VUndefined VUndefined VUndefined VUndefined
               VUndefined None in
  @constructor Sample.world (a VNull) = Ok (initial (a VNull))
  /\ @constructor Sample.world (a (VString "")) = Ok (initial (a (VString ""))).
Proof. split; run. Qed.

Lemma constructor_rejects_autoPlaceholder_witness :
  let a v := Args.mk VNull None VUndefined VUndefined VUndefined VUndefined
               VUndefined v VUndefined VUndefined VUndefined VUndefined
               VUndefined None in
  (exists msg,
     @constructor Sample.world (a (VString "loud")) = Throw (AssertionFailed msg))
  /\ @constructor Sample.world (a VNull) = Ok (initial (a VNull)).
Proof.
  intros a. split.
  - apply (proj1 (@constructor_rejects_autoPlaceholder Sample.world (a (VString "loud"))));
      [reflexivity | discriminate | discriminate | discriminate].
  - apply (proj2 (@constructor_rejects_autoPlaceholder Sample.world (a VNull)));
      [reflexivity | intros H; discriminate H].
Defined.

(** C5, against the claim as stated: false and 0 are defined and are not
    strings, and the constructor accepts both, as it accepts null. *)
Lemma constructor_accepts_falsy_customPlaceholder :
  let a v := Args.mk VNull None VUndefined VUndefined VUndefined VUndefined
               VUndefined VUndefined v VUndefined VUndefined VUndefined
               VUndefined None in
  @constructor Sample.world (a (VBool false)) = Ok (initial (a (VBool false)))
  /\ @constructor Sample.world (a (VNumber zero)) = Ok (initial (a (VNumber zero)))
  /\ @constructor Sample.world (a VNull) = Ok (initial (a VNull)).
Proof. repeat split; run. Qed.

Lemma constructor_rejects_customPlaceholder_witness :
  let a v := Args.mk VNull None VUndefined VUndefined VUndefined VUndefined
               VUndefined VUndefined v VUndefined VUndefined VUndefined
               VUndefined None in
  @constructor Sample.world (a (VBool true))
  = Throw (AssertionFailed customPlaceholder_message)
  /\ @constructor Sample.world (a (VBool false)) = Ok (initial (a (VBool false))).
Proof.
  intros a. split.
  - apply (proj1 (@constructor_rejects_customPlaceholder Sample.world (a (VBool true))));
      [reflexivity | intros s H; discriminate H].
  - apply (proj2 (@constructor_rejects_customPlaceholder Sample.world (a (VBool false))));
      [reflexivity | intros H; discriminate H].
Defined.

(** ** Metadata *)

(** C1, against the claim as stated: the plugin reports its number
    invalid, [numberFormat] is null, and the log holds the four calls of
    the formatter. *)
Lemma metaData_formats_invalid_number :
  metaData (Some tt) (Sample.st_new false)
  = (Ok Sample.meta_invalid, Sample.st_invalid_read)
  /\ In (EvPlugin tt isValidNumber (Ok (VBool false))) (log Sample.st_invalid_read)
  /\ get_prop Sample.meta_invalid "numberFormat" = VNull
  /\ count is_formatter_call (log Sample.st_invalid_read) = 4
  /\ In (EvPlugin tt (getNumber (Some E164))
                  (Ok (VArray [VString "E164"; VString ""])))
        (log Sample.st_invalid_read).
Proof.
  split; [run|]. split; [do 2 right; left; reflexivity|].
  split; [run|]. split; [run|]. do 3 right; left; reflexivity.
Qed.

(** The answers of the sample plugin, which reads without changing its
    world. *)
Lemma sample_chain (w : Sample.World) :
  @metaData_chain Sample.world tt w
    (VString "") (VObject [("iso2", Sample.selected_country w)])
    (VBool (Sample.valid w))
    (VArray [VString "E164"; Sample.stored_number w])
    (VArray [VString "INTERNATIONAL"; Sample.stored_number w])
    (VArray [VString "NATIONAL"; Sample.stored_number w])
    (VArray [VString "RFC3966"; Sample.stored_number w]) w.
Proof.
  unfold metaData_chain. exists w, w, w, w, w, w. repeat split; reflexivity.
Defined.

Lemma metaData_invalid_number_witness :
  metaData (Some tt) (Sample.st_new false)
  = (Ok Sample.meta_invalid, Sample.st_invalid_read)
  /\ (forall k, count (is_format k) (log Sample.st_invalid_read) = 1)
  /\ get_prop Sample.meta_invalid "numberFormat" = VNull
  /\ exists m st', metaData (Some tt) (Sample.st_new false) = (Ok m, st').
Proof.
  assert (Hrun : metaData (Some tt) (Sample.st_new false)
                 = (Ok Sample.meta_invalid, Sample.st_invalid_read)).
  { assert (Hv : truthy (VBool (Sample.valid (ext (Sample.st_new false)))) = false)
      by run.
    refine (eq_trans
              (proj1 (@metaData_invalid_number Sample.world tt (Sample.st_new false))
                 _ _ _ _ _ _ _ _ (sample_chain (ext (Sample.st_new false))) Hv) _).
    run. }
  destruct (proj1 (proj2 (@metaData_invalid_number Sample.world tt (Sample.st_new false)))
              _ _ Hrun) as (ex & scd & v & a & b & c & d & evs & _ & _ & L & Hk & _ & H).
  change (log (Sample.st_new false)) with (@nil Event) in L.
  rewrite app_nil_l in L.
  split; [exact Hrun|]. split; [rewrite L; exact Hk|]. split.
  - apply (H (VBool false)); [|reflexivity].
    rewrite <- L. do 2 right; left; reflexivity.
  - apply (proj2 (proj2 (@metaData_invalid_number Sample.world tt (Sample.st_new false)))).
    exact sample_plugin_never_throws.
Defined.

Lemma metaData_numberFormat_witness :
  metaData (Some tt) Sample.st_mounted
  = (Ok Sample.meta_mounted, Sample.st_mounted_read)
  /\ get_prop Sample.meta_mounted "numberFormat"
     = VObject [("E164", VArray [VString "E164"; VString "+14155552671"]);
                ("INTERNATIONAL", VArray [VString "INTERNATIONAL"; VString "+14155552671"]);
                ("NATIONAL", VArray [VString "NATIONAL"; VString "+14155552671"]);
                ("RFC3966", VArray [VString "RFC3966"; VString "+14155552671"])]
  /\ get_prop Sample.meta_invalid "numberFormat" = VNull
  /\ exists m st', metaData (Some tt) Sample.st_mounted = (Ok m, st').
Proof.
  destruct (proj1 (@metaData_numberFormat Sample.world tt Sample.st_mounted)
              _ _ _ _ _ _ _ _ (sample_chain (ext Sample.st_mounted)))
    as (m & Hv & _ & Ht & _).
  assert (Hm : m = Sample.meta_mounted).
  { pose proof (f_equal fst Hv) as Hf. cbn [fst] in Hf.
    assert (E : Ok m = Ok Sample.meta_mounted)
      by (refine (eq_trans (eq_sym Hf) _); run).
    inversion E; reflexivity. }
  subst m.
  assert (Hi : metaData (Some tt) (Sample.st_new false)
               = (Ok Sample.meta_invalid, Sample.st_invalid_read)) by run.
  split; [|split; [|split]].
  - refine (eq_trans Hv _). run.
  - refine (eq_trans (Ht eq_refl) _). run.
  - destruct (proj1 (proj2 (@metaData_numberFormat Sample.world tt (Sample.st_new false)))
                _ _ Hi) as (ex & scd & v & a & b & c & d & _ & _ & V & _ & Hf).
    apply Hf. rewrite <- V. run.
  - apply (proj2 (proj2 (@metaData_numberFormat Sample.world tt Sample.st_mounted))).
    exact sample_plugin_never_throws.
Defined.

(** ** Configuration updates *)

(** C10, against the claim as stated: the update has a null number, and
    the selected country of the plugin goes from fr to us. *)
Lemma onDidUpdate_null_number_changes_country :
  intlTelInputInstance (this Sample.st_country_only) = Some tt
  /\ Args.number (args (this Sample.st_country_only)) = VNull
  /\ Sample.selected_country (ext Sample.st_country_only) = VString "fr"
  /\ Sample.selected_country (ext (snd (onDidUpdate Sample.st_country_only)))
     = VString "us".
Proof. repeat split; run. Qed.

Lemma onDidUpdate_keeps_when_empty_witness :
  (onDidUpdate Sample.st_cleared = (Ok tt, Sample.st_cleared)
   /\ Sample.stored_number (ext Sample.st_cleared) = VString "+14155552671")
  /\ (log (snd (onDidUpdate Sample.st_country_only))
      = log Sample.st_country_only
        ++ [EvPlugin tt (setCountry (VString "us")) (Ok VUndefined)]
      /\ Sample.stored_number (ext (snd (onDidUpdate Sample.st_country_only)))
         = VString "+33612345678").
Proof.
  split.
  - split; [|run].
    assert (Hp : intlTelInputInstance (this Sample.st_cleared) = Some tt) by run.
    assert (Hn : truthy (Args.number (args (this Sample.st_cleared))) = false) by run.
    assert (Hc : truthy (Args.country (args (this Sample.st_cleared))) = false) by run.
    destruct (onDidUpdate Sample.st_cleared) as [r st'] eqn:Hrun.
    destruct (@onDidUpdate_keeps_when_empty Sample.world tt Sample.st_cleared
                r st' Hp Hrun) as (evs & _ & _ & _ & H & _).
    destruct (H Hn Hc) as [-> ->]. reflexivity.
  - assert (Hp : intlTelInputInstance (this Sample.st_country_only) = Some tt) by run.
    assert (Hn : truthy (Args.number (args (this Sample.st_country_only))) = false)
      by run.
    assert (Hc : truthy (Args.country (args (this Sample.st_country_only))) = true)
      by run.
    destruct (onDidUpdate Sample.st_country_only) as [r st'] eqn:Hrun.
    destruct (@onDidUpdate_keeps_when_empty Sample.world tt Sample.st_country_only
                r st' Hp Hrun) as (evs & L & _ & _ & _ & _ & H & _).
    destruct (H Hn Hc) as (He & Hx & _).
    cbn [snd]. split.
    + rewrite L, He. run.
    + rewrite Hx. run.
Defined.

(** ** The asynchronous mount *)

Lemma loadAndSetup_resume_after_teardown_witness :
  loadAndSetup_resume Sample.input Fulfilled Sample.st_torn
  = (Ok Fulfilled, Sample.st_torn).
Proof.
  apply (@loadAndSetup_resume_after_teardown Sample.world Sample.input Sample.st_torn).
  run.
Defined.

(** C2, against the claim as stated: the component is unmounted while
    [load] is in flight, [load] is fulfilled, and the loading flag is
    still set. *)
Lemma unmount_during_load_leaves_flag :
  onDidInsert Sample.input (Sample.st_new true) = (Ok tt, Sample.st_loading)
  /\ unmount Sample.input Sample.st_loading = (Ok tt, Sample.st_torn)
  /\ loadAndSetup_resume Sample.input Fulfilled Sample.st_torn
     = (Ok Fulfilled, Sample.st_torn)
  /\ isLoadingIntlTelInput (this Sample.st_torn) = true.
Proof. repeat split; run. Qed.

Lemma unmount_during_load_witness :
  (exists st3,
     loadAndSetup_resume Sample.input Fulfilled Sample.st_torn = (Ok Fulfilled, st3)
     /\ isLoadingIntlTelInput (this st3) = true
     /\ intlTelInputInstance (this st3) = None
     /\ log st3 = [EvLoad (Ok tt)])
  /\ (exists st3,
        loadAndSetup_resume Sample.input (Rejected Sample.failure) Sample.st_torn
        = (Ok Fulfilled, st3)
        /\ isLoadingIntlTelInput (this st3) = true
        /\ log st3 = [EvLoad (Ok tt); EvOnError 2 Sample.failure (Ok tt)]).
Proof.
  assert (Hp : intlTelInputInstance (this (Sample.st_new true)) = None) by run.
  assert (Hl : service_load (ext (Sample.st_new true)) = (Ok tt, Sample.ready true))
    by run.
  assert (E1 : onDidInsert Sample.input (Sample.st_new true)
               = (Ok tt, Sample.st_loading)) by run.
  assert (E2 : unmount Sample.input Sample.st_loading = (Ok tt, Sample.st_torn)) by run.
  split.
  - destruct (@unmount_during_load Sample.world Sample.input Fulfilled
                (Sample.st_new true) tt (Sample.ready true) Hp Hl)
      as (st1 & st2 & r & st3 & evs & H1 & H2 & H3 & Hf & Hi & _ & L & _ & Hs & _).
    destruct (Hs eq_refl) as [-> ->].
    pose proof (eq_trans (eq_sym E1) H1) as I1. inversion I1; subst st1.
    pose proof (eq_trans (eq_sym E2) H2) as I2. inversion I2; subst st2.
    exists st3. repeat (split; [assumption|]). exact L.
  - destruct (@unmount_during_load Sample.world Sample.input (Rejected Sample.failure)
                (Sample.st_new true) tt (Sample.ready true) Hp Hl)
      as (st1 & st2 & r & st3 & evs & H1 & H2 & H3 & Hf & _ & _ & L & _ & _ & Hs).
    destruct (Hs Sample.failure eq_refl) as [-> ->].
    pose proof (eq_trans (eq_sym E1) H1) as I1. inversion I1; subst st1.
    pose proof (eq_trans (eq_sym E2) H2) as I2. inversion I2; subst st2.
    exists st3. split; [exact H3|]. split; [exact Hf | exact L].
Defined.

(** C3 at a failing input: a mount that completes and the unmount that
    follows.  The plugin is destroyed and the listener is still there. *)
Lemma onDestroy_keeps_countrychange_listener_witness :
  listeners Sample.st_mounted
  = [(Sample.input, "countrychange", OnCountryChangeBound 0)]
  /\ unmount Sample.input Sample.st_mounted = (Ok tt, Sample.st_unmounted)
  /\ listeners Sample.st_unmounted
     = [(Sample.input, "countrychange", OnCountryChangeBound 0)]
  /\ Sample.destroyed (ext Sample.st_unmounted) = true
  /\ In (Sample.input, "countrychange", OnCountryChangeBound 0)
        (listeners (snd (onDestroy Sample.input Sample.st_mounted))).
Proof.
  split; [run|]. split; [run|]. split; [run|]. split; [run|].
  destruct (onDestroy Sample.input Sample.st_mounted) as [r st'] eqn:Hrun.
  apply (@onDestroy_keeps_countrychange_listener Sample.world Sample.input
           Sample.st_mounted r st' 0 Hrun).
  left; run.
Defined.


(** * More of the component on the sample world *)

Lemma sample_calm : @calm Sample.world Sample.constructs.
Proof.
  unfold calm, Sample.constructs. split; [|split].
  - intros p m x Hx. destruct m as [[k|]| | | | | |]; cbn; eauto.
  - intros el o x Hx. cbn. unfold Sample.construct. rewrite Hx. eauto.
  - intros f n m x Hx. cbn. eauto.
Defined.


Lemma loadAndSetup_without_library_witness :
  exists st',
    loadAndSetup_resume Sample.input Fulfilled Sample.st_no_library
    = (Ok Fulfilled, st')
    /\ intlTelInputInstance (this st') = None
    /\ listeners st' = [(Sample.input, "countrychange", OnCountryChangeBound 0)]
    /\ log st' = [].
Proof.
  assert (Hl : live (this Sample.st_no_library)) by (split; run).
  assert (Hf : service_intlTelInput (ext Sample.st_no_library) = false) by run.
  assert (Hp : intlTelInputInstance (this Sample.st_no_library) = None) by run.
  eexists. split.
  - exact (@loadAndSetup_without_library Sample.world Sample.input
             Sample.st_no_library Hl Hf Hp).
  - repeat split; run.
Defined.

Lemma onInput_without_plugin_witness :
  onInput None (Sample.st_new true) = (Throw onInput_TypeError, Sample.st_new true)
  /\ exists o st',
       onInput (Some (VString "0612")) (Sample.st_new true)
       = (match o with Ok _ => Ok true | Throw e => Throw e end, st')
       /\ log st' = [EvUpdate 1 (VString "0612") (VObject []) o].
Proof.
  assert (Hp : intlTelInputInstance (this (Sample.st_new true)) = None) by run.
  assert (Hu : update (this (Sample.st_new true)) = Some 1) by run.
  destruct (@onInput_without_plugin Sample.world (Sample.st_new true) Hp)
    as (H1 & _ & H3).
  split; [exact H1|].
  destruct (H3 (VString "0612") 1 Hu) as (o & st' & Hr & L & _).
  exists o, st'. split; [exact Hr | exact L].
Defined.

Lemma onCountryChange_without_plugin_witness :
  onCountryChange (Sample.st_new true)
  = (Throw onInput_TypeError, Sample.st_new true).
Proof.
  apply (@onCountryChange_without_plugin Sample.world (Sample.st_new true)).
  run.
Defined.

Lemma onInput_only_reads_witness :
  this (snd (onInput (Some (VString "0612")) Sample.st_mounted))
  = this Sample.st_mounted
  /\ fst (onInput (Some (VString "0612")) Sample.st_mounted) = Ok true.
Proof.
  destruct (onInput (Some (VString "0612")) Sample.st_mounted) as [r st'] eqn:Hrun.
  destruct (@onInput_only_reads Sample.world _ _ _ _ Hrun) as (Ht & _ & Hb & _).
  split; [exact Ht|]. cbn [fst].
  assert (Hr : r = Ok true).
  { apply (f_equal fst) in Hrun. cbn [fst] in Hrun. rewrite <- Hrun. run. }
  exact Hr.
Defined.

Lemma onCountryChange_reapplies_country_witness :
  exists o evs,
    log (snd (onCountryChange Sample.st_french))
    = log Sample.st_french
      ++ EvPlugin tt getSelectedCountryData (Ok (VObject [("iso2", VString "fr")]))
      :: EvPlugin tt (setCountry (VString "fr")) o :: evs
    /\ count is_setCountry evs = 0.
Proof.
  destruct (onCountryChange Sample.st_french) as [r st'] eqn:Hrun.
  assert (Hp : intlTelInputInstance (this Sample.st_french) = Some tt) by run.
  assert (Hs : plugin_call tt getSelectedCountryData (ext Sample.st_french)
               = (Ok (VObject [("iso2", VString "fr")]), ext Sample.st_french)) by run.
  destruct (@onCountryChange_reapplies_country Sample.world tt Sample.st_french
              _ _ r st' Hp Hs Hrun) as (_ & _ & evs & L & _ & _ & _ & Ht).
  destruct (Ht eq_refl) as (o & evs' & -> & Z & _).
  exists o, evs'. split; [exact L | exact Z].
Defined.

Lemma unmount_keeps_plugin_reference_witness :
  intlTelInputInstance (this Sample.st_unmounted) = Some tt
  /\ exists o,
       log (snd (onDidUpdate Sample.st_unmounted))
       = log Sample.st_unmounted ++ [EvPlugin tt (setNumber (VString "+14155552671")) o].
Proof.
  assert (Hrun : unmount Sample.input Sample.st_mounted = (Ok tt, Sample.st_unmounted))
    by run.
  destruct (@unmount_keeps_plugin_reference Sample.world Sample.input
              Sample.st_mounted _ _ Hrun) as (Hi & _ & _ & _ & _ & _ & Hu & _).
  split; [rewrite Hi; run|].
  destruct (onDidUpdate Sample.st_unmounted) as [r2 st2] eqn:H2.
  assert (Hp : intlTelInputInstance (this Sample.st_mounted) = Some tt) by run.
  assert (Hc : truthy (Args.country (args (this Sample.st_mounted))) = false) by run.
  assert (Hn : truthy (Args.number (args (this Sample.st_mounted))) = true) by run.
  exact (Hu tt r2 st2 Hp Hc Hn eq_refl).
Defined.

Lemma loadAndSetup_constructs_once_witness :
  exists evs,
    log Sample.st_mounted = log Sample.st_loading ++ evs
    /\ count is_construct evs <= 1 /\ count is_update evs <= 1.
Proof.
  assert (Hrun : loadAndSetup_resume Sample.input Fulfilled Sample.st_loading
                 = (Ok Fulfilled, Sample.st_mounted)) by run.
  exact (proj1 (@loadAndSetup_constructs_once Sample.world Sample.input
                  Sample.st_loading) _ _ _ Hrun).
Defined.

Lemma setupLibrary_options_checked_witness :
  exists evs,
    log Sample.st_mounted = log Sample.st_loading ++ evs
    /\ Forall construct_checked evs.
Proof.
  assert (Hc : constructor (Sample.some_args (VString "+14155552671") VUndefined)
               = Ok (Sample.component (VString "+14155552671") VUndefined)) by run.
  assert (Ha : args (this Sample.st_loading)
               = Sample.some_args (VString "+14155552671") VUndefined) by run.
  assert (Hrun : loadAndSetup_resume Sample.input Fulfilled Sample.st_loading
                 = (Ok Fulfilled, Sample.st_mounted)) by run.
  exact (proj2 (@setupLibrary_options_checked Sample.world _ _ _ _ _ _ _ Hc Ha Hrun)).
Defined.

Lemma loadAndSetup_mounts_witness :
  exists p st',
    loadAndSetup_resume Sample.input Fulfilled Sample.st_loading = (Ok Fulfilled, st')
    /\ intlTelInputInstance (this st') = Some p
    /\ isLoadingIntlTelInput (this st') = false
    /\ listeners st' = [(Sample.input, "countrychange", OnCountryChangeBound 0)].
Proof.
  assert (HJ : Sample.constructs (ext Sample.st_loading)) by run.
  assert (Hl : live (this Sample.st_loading)) by (split; run).
  assert (Hf : service_intlTelInput (ext Sample.st_loading) = true) by run.
  assert (Hs : serials_fresh Sample.st_loading) by (intros el ty k []).
  destruct (@loadAndSetup_mounts Sample.world Sample.constructs Sample.input
              Sample.st_loading sample_calm HJ Hl Hf Hs)
    as (p & o & evs & st' & Hr & Hi & Hfl & Hls & _).
  exists p, st'. repeat (split; [assumption|]). exact Hls.
Defined.

Lemma onDidUpdate_country_before_number_witness :
  exists o rest,
    log (snd (onDidUpdate Sample.st_french))
    = log Sample.st_french ++ EvPlugin tt (setCountry (VString "fr")) o :: rest
    /\ (forall v, o = Ok v ->
          exists o', rest = [EvPlugin tt (setNumber (VString "+33612345678")) o']).
Proof.
  destruct (onDidUpdate Sample.st_french) as [r st'] eqn:Hrun.
  assert (Hp : intlTelInputInstance (this Sample.st_french) = Some tt) by run.
  assert (Hc : truthy (country (this Sample.st_french)) = true) by run.
  assert (Hn : truthy (number (this Sample.st_french)) = true) by run.
  destruct (@onDidUpdate_country_before_number Sample.world Sample.st_french r st' Hrun)
    as (_ & _ & _ & Hevs).
  destruct (Hevs tt Hp) as (evs & L & _ & Ht).
  destruct (Ht Hc) as (o & rest & -> & _ & _ & Hok).
  exists o, rest. split; [exact L|].
  intros v Hv. exact (Hok v Hv Hn).
Defined.

Lemma constructor_succeeds_iff_witness :
  (exists c, constructor (Sample.some_args (VString "+14155552671") VUndefined) = Ok c)
  /\ live (Sample.component (VString "+14155552671") VUndefined)
  /\ ~ autoPlaceholder_ok
         (Args.mk VNull None VUndefined VUndefined VUndefined VUndefined VUndefined
                  (VString "loud") VUndefined VUndefined VUndefined VUndefined
                  VUndefined None).
Proof.
  pose (a := Sample.some_args (VString "+14155552671") VUndefined).
  pose (b := Args.mk VNull None VUndefined VUndefined VUndefined VUndefined VUndefined
                     (VString "loud") VUndefined VUndefined VUndefined VUndefined
                     VUndefined None).
  assert (Hc : customPlaceholder_ok a) by (intros H; discriminate H).
  assert (Ha : autoPlaceholder_ok a) by (intros H; discriminate H).
  assert (Hok : constructor a = Ok (Sample.component (VString "+14155552671") VUndefined))
    by run.
  assert (Hb : constructor b = Throw (AssertionFailed autoPlaceholder_message)) by run.
  split; [|split].
  - exact (proj2 (proj1 (@constructor_succeeds_iff Sample.world a)) (conj Hc Ha)).
  - exact (proj2 (proj2 (proj2 (proj2
             (proj1 (proj2 (@constructor_succeeds_iff Sample.world a)) _ Hok))))).
  - destruct (proj2 (proj2 (@constructor_succeeds_iff Sample.world b)) _ Hb)
      as [[He _] | (_ & _ & Hn)]; [discriminate He | exact Hn].
Defined.

Lemma metaData_reads_in_order_witness :
  exists evs,
    log Sample.st_mounted_read = log Sample.st_mounted ++ evs
    /\ map method_of evs = map Some metaData_methods.
Proof.
  assert (Hrun : metaData (Some tt) Sample.st_mounted
                 = (Ok Sample.meta_mounted, Sample.st_mounted_read)) by run.
  destruct (@metaData_reads_in_order Sample.world tt Sample.st_mounted _ _ Hrun)
    as (_ & _ & (evs & L & M & _ & Hlen & _) & _).
  exists evs. split; [exact L|].
  rewrite M, Hlen. reflexivity.
Defined.

Lemma onInput_number_fallback_witness :
  exists evs,
    log (snd (onInput (Some (VString "0612")) Sample.st_mounted))
    = log Sample.st_mounted
      ++ EvPlugin tt (getNumber None) (Ok (VString "+14155552671"))
      :: evs ++ [EvUpdate 1 (VString "+14155552671") Sample.meta_mounted (Ok tt)]
    /\ map method_of evs = map Some metaData_methods
    /\ fst (onInput (Some (VString "0612")) Sample.st_mounted) = Ok true.
Proof.
  destruct (onInput (Some (VString "0612")) Sample.st_mounted) as [r st'] eqn:Hrun.
  assert (Hp : intlTelInputInstance (this Sample.st_mounted) = Some tt) by run.
  assert (Hn : plugin_call tt (getNumber None) (ext Sample.st_mounted)
               = (Ok (VString "+14155552671"), ext Sample.st_mounted)) by run.
  assert (Hu : update (this Sample.st_mounted) = Some 1) by run.
  destruct (@onInput_number_fallback Sample.world tt _ Sample.st_mounted _ _ r st'
              Hp Hn Hrun) as (evs & L & _ & _ & Hprod).
  destruct (Hprod _ 1 _ _ _ _ _ _ _ _ eq_refl Hu (sample_chain (ext Sample.st_mounted)))
    as (He & _ & Hr).
  eexists. cbn [fst snd]. split; [rewrite L, He; reflexivity|].
  split; [reflexivity|]. rewrite Hr. run.
Defined.
